(** * GPU telemetry route ([ui/src/app/api/gpu/route.ts])

    A shallow embedding of the Next.js route handler [GET] and of its three
    helpers [checkNvidiaSmi], [getGpuStats] and [getMpsInfo], together with
    the fragment of the JavaScript run time they rely on (strings, numbers,
    [parseInt], [parseFloat], [Math.round], [String.prototype.split] ...).

    Conventions.
    - A JavaScript string is a [string]; every [ascii] stands for the UTF-16
      code unit of the same value, so the model covers the strings whose
      code units are below 256 (the output of the command line tools the
      route calls is plain ASCII).
    - A JavaScript Number is a binary64 [float].
    - [await execAsync cmd] is a step of a state-and-exception monad: the
      host decides whether the command succeeds and what it prints, the
      monad records that the command was started. *)

From Stdlib Require Import ZArith List Bool Ascii String Lia.
From Stdlib Require Import Floats.
Import ListNotations.

Local Open Scope string_scope.

(** ** Strings *)

Module JsString.

(** [WhiteSpace] and [LineTerminator] code units below 256: TAB, LF, VT,
    FF, CR, SP and NBSP.  This is the set stripped by [trim], matched by
    the regular expression class [\s] and skipped by [parseInt]. *)
Definition isWhiteSpace (c : ascii) : bool :=
  match N_of_ascii c with
  | 9%N | 10%N | 11%N | 12%N | 13%N | 32%N | 160%N => true
  | _ => false
  end.

(** The class [\d]. *)
Definition isDigit (c : ascii) : bool :=
  ((48 <=? N_of_ascii c) && (N_of_ascii c <=? 57))%N.

Fixpoint trimStart (s : string) : string :=
  match s with
  | EmptyString => EmptyString
  | String c s' => if isWhiteSpace c then trimStart s' else s
  end.

Fixpoint trimEnd (s : string) : string :=
  match s with
  | EmptyString => EmptyString
  | String c s' =>
      match trimEnd s' with
      | EmptyString => if isWhiteSpace c then EmptyString else String c EmptyString
      | t => String c t
      end
  end.

(** [String.prototype.trim] *)
Definition trim (s : string) : string := trimEnd (trimStart s).

(** [s.includes(pat)] *)
Fixpoint includes (s pat : string) : bool :=
  String.prefix pat s ||
  match s with
  | EmptyString => false
  | String _ s' => includes s' pat
  end.

(** [s.split(sep)] for a non-empty separator: the text between the
    successive, non-overlapping occurrences of [sep], scanned from the
    left.  [skip] counts the code units of a separator that was just
    recognised and are still to be dropped; [cur] is the piece being
    collected. *)
Fixpoint split_from (sep : string) (skip : nat) (cur : string) (s : string)
  : list string :=
  match s with
  | EmptyString => [cur]
  | String c s' =>
      match skip with
      | S k => split_from sep k cur s'
      | O =>
          if String.prefix sep s
          then cur :: split_from sep (String.length sep - 1) EmptyString s'
          else split_from sep 0 (cur ++ String c EmptyString) s'
      end
  end.

Definition split (s sep : string) : list string :=
  split_from sep 0 EmptyString s.

(** The longest prefix of [s] whose code units satisfy [p], and the rest. *)
Fixpoint span (p : ascii -> bool) (s : string) : string * string :=
  match s with
  | EmptyString => (EmptyString, EmptyString)
  | String c s' =>
      if p c then let (a, b) := span p s' in (String c a, b)
      else (EmptyString, s)
  end.

(** [s] without the prefix [pre], when it starts with it. *)
Fixpoint stripPrefix (pre s : string) : option string :=
  match pre, s with
  | EmptyString, _ => Some s
  | String a pre', String b s' =>
      if Ascii.eqb a b then stripPrefix pre' s' else None
  | String _ _, EmptyString => None
  end.

End JsString.

(** ** Numbers *)

Module JsNumber.
Import JsString.
Local Open Scope Z_scope.

(** The Number value of a mathematical integer: the nearest binary64,
    ties to even. *)
Definition ofZ (n : Z) : float :=
  SF2Prim (binary_normalize prec emax n 0 false).

(** The Number value of [p / q] for positive [p] and [q], correctly
    rounded: the quotient is taken with more than 60 bits and a sticky
    bit, then rounded once. *)
Definition ofRatio (neg : bool) (p q : Z) : float :=
  let k := Z.max 0 (64 + Z.log2 q - Z.log2 p) in
  let num := Z.shiftl p k in
  let m := 2 * (num / q) + (if num mod q =? 0 then 0 else 1) in
  SF2Prim (binary_normalize prec emax (if neg then - m else m) (- k - 1) false).

(** The Number value of [± n * 10^e] for [0 <= n]. *)
Definition ofDecimal (neg : bool) (n e : Z) : float :=
  if n =? 0 then (if neg then neg_zero else zero)
  else if 0 <=? e then ofZ ((if neg then - n else n) * 10 ^ e)
  else ofRatio neg n (10 ^ (- e)).

(** The value of a digit in the given radix. *)
Definition digitValue (radix : Z) (c : ascii) : option Z :=
  let n := Z.of_N (N_of_ascii c) in
  let v :=
    if (48 <=? n) && (n <=? 57) then Some (n - 48)
    else if (97 <=? n) && (n <=? 122) then Some (n - 87)
    else if (65 <=? n) && (n <=? 90) then Some (n - 55)
    else None in
  match v with
  | Some d => if d <? radix then Some d else None
  | None => None
  end.

(** The value of the longest prefix of radix-[radix] digits of [s];
    [acc] is [None] as long as no digit was read. *)
Fixpoint digitsValue (radix : Z) (acc : option Z) (s : string) : option Z :=
  match s with
  | EmptyString => acc
  | String c s' =>
      match digitValue radix c with
      | Some d =>
          digitsValue radix
            (Some (radix * match acc with Some a => a | None => 0 end + d)) s'
      | None => acc
      end
  end.

(** An optional sign: whether it is [-], and the rest of the string. *)
Definition takeSign (s : string) : bool * string :=
  match s with
  | String "-"%char r => (true, r)
  | String "+"%char r => (false, r)
  | _ => (false, s)
  end.

(** [parseInt(string)] with the radix left undefined: leading white space
    is skipped, a sign is read, a [0x] or [0X] prefix selects radix 16,
    and the longest run of digits is converted (its mathematical value,
    rounded to the nearest Number); no digit gives [NaN]. *)
Definition parseInt (inputString : string) : float :=
  let (neg, s) := takeSign (trimStart inputString) in
  let (radix, s) :=
    match s with
    | String "0"%char (String "x"%char r) => (16, r)
    | String "0"%char (String "X"%char r) => (16, r)
    | _ => (10, s)
    end in
  match digitsValue radix None s with
  | None => nan
  | Some n =>
      if n =? 0 then (if neg then neg_zero else zero)
      else ofZ (if neg then - n else n)
  end.

Definition decimalValue (s : string) : Z :=
  match digitsValue 10 None s with Some n => n | None => 0 end.

(** [parseFloat(string)]: the longest prefix that is a
    [StrDecimalLiteral]; none gives [NaN]. *)
Definition parseFloat (inputString : string) : float :=
  let (neg, s) := takeSign (trimStart inputString) in
  if String.prefix "Infinity" s then (if neg then neg_infinity else infinity)
  else
    let (ip, r1) := span isDigit s in
    let (fp, r2) :=
      match r1 with
      | String "."%char r => span isDigit r
      | _ => (EmptyString, r1)
      end in
    match ip ++ fp with
    | EmptyString => nan
    | ds =>
        let ex :=
          match r2 with
          | String c r =>
              if Ascii.eqb c "e" || Ascii.eqb c "E" then
                let (eneg, r') := takeSign r in
                match fst (span isDigit r') with
                | EmptyString => 0
                | ed => if eneg then - decimalValue ed else decimalValue ed
                end
              else 0
          | EmptyString => 0
          end in
        ofDecimal neg (decimalValue ds) (ex - Z.of_nat (String.length fp))
    end.

(** ToBoolean on a Number: [NaN], [+0] and [-0] are falsy. *)
Definition truthy (x : float) : bool := negb (is_nan x || is_zero x).

(** [x || d] on Numbers. *)
Definition orElse (x d : float) : float := if truthy x then x else d.

(** [Math.round]: the nearest integral Number, ties towards +infinity;
    integral values, infinities and [NaN] are returned as they are, and a
    result of zero keeps the sign of the argument. *)
Definition Math_round (x : float) : float :=
  match Prim2SF x with
  | S754_finite neg m e =>
      if 0 <=? e then x
      else
        let n := if neg then Z.neg m else Z.pos m in
        let r := (2 * n + 2 ^ (- e)) / 2 ^ (- e + 1) in
        if r =? 0 then (if neg then neg_zero else zero) else ofZ r
  | _ => x
  end.

End JsNumber.

(** ** Regular expressions *)

Module JsRegExp.
Import JsString.

(** A match of [label\s+(\d+)] anchored at the start of [s]: the first
    capture group.  White space and digits are disjoint classes, so the
    greedy [\s+] followed by the greedy [\d+] either succeeds at once or
    cannot succeed by backtracking. *)
Definition matchHere (label s : string) : option string :=
  match stripPrefix label s with
  | None => None
  | Some r =>
      match span isWhiteSpace r with
      | (EmptyString, _) => None
      | (_, r') =>
          match fst (span isDigit r') with
          | EmptyString => None
          | ds => Some ds
          end
      end
  end.

(** [s.match(/label\s+(\d+)/)?.[1]]: the capture of the leftmost match,
    [None] (for [undefined]) when there is none. *)
Fixpoint matchGroup1 (label s : string) : option string :=
  match matchHere label s with
  | Some ds => Some ds
  | None =>
      match s with
      | EmptyString => None
      | String _ s' => matchGroup1 label s'
      end
  end.

End JsRegExp.

Import JsString JsNumber JsRegExp.

(** ** Values and records *)

(** The values the route stores in the fields of a GPU record: a Number, a
    string, or nothing ([undefined], which is also how a key that an object
    literal leaves out reads). *)
Inductive value : Type :=
| VUndefined
| VNum (n : float)
| VStr (s : string).

Record Utilization := { utilization_gpu : value; utilization_memory : value }.
Record Memory := { memory_total : value; memory_free : value; memory_used : value }.
Record Power := { power_draw : value; power_limit : value }.
Record Clocks := { clocks_graphics : value; clocks_memory : value }.
Record Fan := { fan_speed : value }.

Record GpuRecord := {
  index : value;
  name : value;
  driverVersion : value;
  temperature : value;
  utilization : Utilization;
  memory : Memory;
  power : Power;
  clocks : Clocks;
  fan : Fan;
  type : value;
  model : value;
  cores : value;
}.

(** [{ ...gpu, type: t }] *)
Definition withType (gpu : GpuRecord) (t : string) : GpuRecord :=
  {| index := index gpu; name := name gpu; driverVersion := driverVersion gpu;
     temperature := temperature gpu; utilization := utilization gpu;
     memory := memory gpu; power := power gpu; clocks := clocks gpu;
     fan := fan gpu; type := VStr t; model := model gpu; cores := cores gpu |}.

(** The body of the JSON response. *)
Record Snapshot := {
  hasNvidiaSmi : bool;
  hasMps : bool;
  platform : string;
  gpus : list GpuRecord;
  error : option string;
}.

(** [NextResponse.json(body, { status })] *)
Record Response := { status : Z; body : Snapshot }.

(** ** The host and the effects of the route *)

(** A thrown value.  Everything the route can catch is an [Error] object
    (a rejected [exec], a [TypeError]); only its message is observed. *)
Record exn := Error { message : string }.

(** What the route sees of the machine it runs on: [os.platform()] and,
    for every shell command, whether [promisify(exec)] rejects or resolves
    (with the text printed on the standard output). *)
Record Host := {
  os_platform : string;
  exec : string -> exn + string;
}.

Inductive event :=
| Exec (command : string)
| ConsoleError (label : string) (e : exn).

(** Computations that log their events and either throw or return. *)
Definition M (A : Type) : Type := list event -> (exn + A) * list event.

Definition ret {A} (a : A) : M A := fun t => (inr a, t).

Definition bind {A B} (m : M A) (k : A -> M B) : M B :=
  fun t => match m t with
           | (inr a, t') => k a t'
           | (inl e, t') => (inl e, t')
           end.

Definition throw {A} (e : exn) : M A := fun t => (inl e, t).

(** [try { m } catch (e) { handler e }] *)
Definition tryCatch {A} (m : M A) (handler : exn -> M A) : M A :=
  fun t => match m t with
           | (inl e, t') => handler e t'
           | (inr a, t') => (inr a, t')
           end.

Definition console_error (label : string) (e : exn) : M unit :=
  fun t => (inr tt, (t ++ [ConsoleError label e])%list).

Notation "x <- m ;; k" := (bind m (fun x => k))
  (at level 61, m at next level, right associativity).
Notation "m ;;; k" := (bind m (fun _ => k))
  (at level 61, right associativity).

(** ** The route *)

Definition LF : string := String "010"%char EmptyString.
Definition DQUOTE : string := String "034"%char EmptyString.

Definition probeWindows : string := "nvidia-smi -L".
Definition probePosix : string := "which nvidia-smi".
Definition command : string :=
  "nvidia-smi --query-gpu=index,name,driver_version,temperature.gpu,utilization.gpu,utilization.memory,memory.total,memory.free,memory.used,power.draw,power.limit,clocks.current.graphics,clocks.current.memory,fan.speed --format=csv,noheader,nounits".
Definition brandCommand : string := "sysctl -n machdep.cpu.brand_string".
Definition memsizeCommand : string := "sysctl -n hw.memsize".
Definition vmStatCommand : string := "vm_stat".
Definition coresCommand : string :=
  "system_profiler SPDisplaysDataType | grep " ++ DQUOTE ++ "Total Number of Cores" ++ DQUOTE.

(** The marker the route stores where a sensor has no reading. *)
Definition NA : value := VStr "N/A".

(** ToString of a possibly missing string: [undefined] reads "undefined". *)
Definition toStr (item : option string) : string :=
  match item with Some s => s | None => "undefined" end.

Definition toValue (item : option string) : value :=
  match item with Some s => VStr s | None => VUndefined end.

(** [line.split(', ').map(item => item.trim())] *)
Definition items (line : string) : list string := map trim (split line ", ").

(** The arrow function mapped over the lines of the query output.  The
    array pattern binds the first fourteen items; a missing item is
    [undefined]. *)
Definition parseLine (line : string) : GpuRecord :=
  let item i := nth_error (items line) i in
  {| index := VNum (parseInt (toStr (item 0%nat)));
     name := toValue (item 1%nat);
     driverVersion := toValue (item 2%nat);
     temperature := VNum (parseInt (toStr (item 3%nat)));
     utilization :=
       {| utilization_gpu := VNum (parseInt (toStr (item 4%nat)));
          utilization_memory := VNum (parseInt (toStr (item 5%nat))) |};
     memory :=
       {| memory_total := VNum (parseInt (toStr (item 6%nat)));
          memory_free := VNum (parseInt (toStr (item 7%nat)));
          memory_used := VNum (parseInt (toStr (item 8%nat))) |};
     power :=
       {| power_draw := VNum (parseFloat (toStr (item 9%nat)));
          power_limit := VNum (parseFloat (toStr (item 10%nat))) |};
     clocks :=
       {| clocks_graphics := VNum (parseInt (toStr (item 11%nat)));
          clocks_memory := VNum (parseInt (toStr (item 12%nat))) |};
     fan := {| fan_speed := VNum (orElse (parseInt (toStr (item 13%nat))) 0) |};
     type := VUndefined;
     model := VUndefined;
     cores := VUndefined |}.

(** [stdout.trim().split('\n').map(line => ...)] *)
Definition parseStats (stdout : string) : list GpuRecord :=
  map parseLine (split (trim stdout) LF).

Section Route.

Variable host : Host.

(** [await execAsync(command)]; the options of the query call only set an
    environment variable of the child process. *)
Definition execAsync (cmd : string) : M string :=
  fun t => (exec host cmd, (t ++ [Exec cmd])%list).

Definition checkNvidiaSmi (isWindows : bool) : M bool :=
  tryCatch
    ((if isWindows then execAsync probeWindows else execAsync probePosix) ;;;
     ret true)
    (fun _ => ret false).

Definition getGpuStats (isWindows : bool) : M (list GpuRecord) :=
  stdout <- execAsync command ;;
  ret (parseStats stdout).

(** [parseInt(vmStat.match(/label\s+(\d+)/)?.[1] || '0')] *)
Definition pageCount (label vmStat : string) : float :=
  parseInt
    match matchGroup1 label vmStat with
    | Some EmptyString | None => "0"
    | Some ds => ds
    end.

(** The [vm_stat] block: the values of [usedMemoryMB] and [freeMemoryMB]
    after it.  Both keep their initial ['N/A'] when the block throws, since
    the two assignments come after everything that can throw. *)
Definition memoryUsage : M (value * value) :=
  tryCatch
    (vmStat <- execAsync vmStatCommand ;;
     let pageSize := 4096%float in
     let pagesActive := pageCount "Pages active:" vmStat in
     let pagesWired := pageCount "Pages wired down:" vmStat in
     let pagesInactive := pageCount "Pages inactive:" vmStat in
     let pagesFree := pageCount "Pages free:" vmStat in
     let usedPages := (pagesActive + pagesWired + pagesInactive)%float in
     ret (VNum (Math_round ((usedPages * pageSize) / (1024 * 1024))%float),
          VNum (Math_round ((pagesFree * pageSize) / (1024 * 1024))%float)))
    (fun vmStatError =>
       console_error "Error getting memory stats:" vmStatError ;;;
       ret (NA, NA)).

(** The object literal shared by the two [return]s of [getMpsInfo]; the
    fallback leaves [cores] out. *)
Definition mpsRecord (stdout : string) (totalMemoryGB : float)
    (usedMemoryMB freeMemoryMB : value) (gpuCoreCount : value) : GpuRecord :=
  {| index := VNum 0;
     name := VStr "Apple Silicon GPU";
     driverVersion := VUndefined;
     type := VStr "mps";
     model := VStr (trim stdout);
     cores := gpuCoreCount;
     memory :=
       {| memory_total := VNum (totalMemoryGB * 1024)%float;
          memory_used := usedMemoryMB;
          memory_free := freeMemoryMB |};
     utilization :=
       {| utilization_gpu := NA;
          utilization_memory :=
            match usedMemoryMB with
            | VNum used =>
                VNum (Math_round ((used / (totalMemoryGB * 1024)) * 100)%float)
            | _ => NA
            end |};
     temperature := NA;
     power := {| power_draw := NA; power_limit := NA |};
     clocks := {| clocks_graphics := NA; clocks_memory := NA |};
     fan := {| fan_speed := NA |} |}.

Definition getMpsInfo : M (option GpuRecord) :=
  tryCatch
    (stdout <- execAsync brandCommand ;;
     let isAppleSilicon := includes stdout "Apple M" in
     if negb isAppleSilicon then ret None
     else
       memInfo <- execAsync memsizeCommand ;;
       let totalMemoryBytes := parseInt (trim memInfo) in
       let totalMemoryGB :=
         Math_round (totalMemoryBytes / (1024 * 1024 * 1024))%float in
       usage <- memoryUsage ;;
       let (usedMemoryMB, freeMemoryMB) := usage : value * value in
       tryCatch
         (gpuCores <- execAsync coresCommand ;;
          afterColon <-
            match nth_error (split gpuCores ":") 1 with
            | Some part => ret part
            | None =>
                throw (Error "Cannot read properties of undefined (reading 'trim')")
            end ;;
          let gpuCoreCount := parseInt (trim afterColon) in
          ret (Some (mpsRecord stdout totalMemoryGB usedMemoryMB freeMemoryMB
                       (VNum gpuCoreCount))))
         (fun _ =>
            ret (Some (mpsRecord stdout totalMemoryGB usedMemoryMB freeMemoryMB
                         VUndefined))))
    (fun error =>
       console_error "Error detecting MPS:" error ;;;
       ret None).

(** The [try] block of [GET]. *)
Definition GET_body : M Response :=
  let platform := os_platform host in
  let isWindows := String.eqb platform "win32" in
  let isMac := String.eqb platform "darwin" in
  let gpus := [] in
  hasNvidiaSmi <- checkNvidiaSmi isWindows ;;
  gpus <-
    (if hasNvidiaSmi : bool then
       nvidiaGpus <- getGpuStats isWindows ;;
       ret (gpus ++ map (fun gpu => withType gpu "cuda") nvidiaGpus)%list
     else ret gpus) ;;
  mps <-
    (if isMac then
       mpsInfo <- getMpsInfo ;;
       match mpsInfo with
       | Some info => ret (true, (gpus ++ [info])%list)
       | None => ret (false, gpus)
       end
     else ret (false, gpus)) ;;
  let (hasMps, gpus) := mps : bool * list GpuRecord in
  ret {| status := 200;
         body := {| hasNvidiaSmi := hasNvidiaSmi; hasMps := hasMps;
                    platform := platform; gpus := gpus; error := None |} |}.

Definition GET : M Response :=
  tryCatch GET_body
    (fun error =>
       console_error "Error fetching GPU stats:" error ;;;
       ret {| status := 500;
              body := {| hasNvidiaSmi := false; hasMps := false;
                         platform := os_platform host; gpus := [];
                         error := Some ("Failed to fetch GPU stats: " ++ message error) |} |}).

End Route.

(** ** Sample hosts *)

(** A host given by the commands that succeed, with what they print; any
    other command is rejected. *)
Definition hostOf (p : string) (table : list (string * string)) : Host :=
  {| os_platform := p;
     exec := fun cmd =>
       match find (fun kv => String.eqb (fst kv) cmd) table with
       | Some kv => inr (snd kv)
       | None => inl (Error ("Command failed: " ++ cmd))
       end |}.

(** The sample line of the query output. *)
Definition sampleLine : string :=
  "0, Test GPU, 525.60, 45, 10, 5, 8192, 6000, 2192, 50.5, 150.0, 1500, 7000, 30".

(** A Linux machine with one NVIDIA card. *)
Definition linuxHost : Host :=
  hostOf "linux"
    [(probePosix, "/usr/bin/nvidia-smi" ++ LF); (command, sampleLine ++ LF)].

(** A Linux machine where [nvidia-smi] is installed but the query fails. *)
Definition brokenDriverHost : Host :=
  hostOf "linux" [(probePosix, "/usr/bin/nvidia-smi" ++ LF)].

(** A Linux machine without [nvidia-smi]. *)
Definition plainLinuxHost : Host := hostOf "linux" [].

(** An output of [vm_stat]. *)
Definition sampleVmStat : string :=
  "Mach Virtual Memory Statistics: (page size of 16384 bytes)" ++ LF ++
  "Pages free:                               12345." ++ LF ++
  "Pages active:                            200000." ++ LF ++
  "Pages inactive:                          190000." ++ LF ++
  "Pages wired down:                        100000." ++ LF.

(** An Apple Silicon Mac on which every tool answers. *)
Definition macHost : Host :=
  hostOf "darwin"
    [(brandCommand, "Apple M2 Pro" ++ LF);
     (memsizeCommand, "17179869184" ++ LF);
     (vmStatCommand, sampleVmStat);
     (coresCommand, "      Total Number of Cores: 19" ++ LF)].

(** The same Mac with [vm_stat] and [system_profiler] failing. *)
Definition macNoVmStatHost : Host :=
  hostOf "darwin"
    [(brandCommand, "Apple M2 Pro" ++ LF); (memsizeCommand, "17179869184" ++ LF)].

(** The same Mac with [sysctl -n hw.memsize] failing. *)
Definition macNoMemsizeHost : Host :=
  hostOf "darwin" [(brandCommand, "Apple M2 Pro" ++ LF)].

(** An Intel Mac. *)
Definition intelMacHost : Host :=
  hostOf "darwin"
    [(brandCommand, "Intel Core i9" ++ LF); (memsizeCommand, "17179869184" ++ LF)].

(** A Mac on which [which nvidia-smi] answers, the query is rejected and
    the processor is an Intel one. *)
Definition intelMacBrokenDriverHost : Host :=
  hostOf "darwin"
    [(probePosix, "/usr/local/bin/nvidia-smi" ++ LF);
     (brandCommand, "Intel Core i9" ++ LF)].

(** The record of the sample line, as [getGpuStats] returns it. *)
Definition sampleRecord : GpuRecord :=
  {| index := VNum 0;
     name := VStr "Test GPU";
     driverVersion := VStr "525.60";
     temperature := VNum 45;
     utilization := {| utilization_gpu := VNum 10; utilization_memory := VNum 5 |};
     memory := {| memory_total := VNum 8192; memory_free := VNum 6000;
                  memory_used := VNum 2192 |};
     power := {| power_draw := VNum 50.5; power_limit := VNum 150 |};
     clocks := {| clocks_graphics := VNum 1500; clocks_memory := VNum 7000 |};
     fan := {| fan_speed := VNum 30 |};
     type := VUndefined;
     model := VUndefined;
     cores := VUndefined |}.

(** A line whose numeric columns all carry a fraction. *)
Definition fractionLine : string :=
  "0.75, Test GPU, 525.60, 45.75, 10.75, 5.75, 8192.75, 6000.75, 2192.75, 50.75, 150.75, 1500.75, 7000.75, 30.75".

(** A line of the output of a card without fan sensor. *)
Definition fanlessLine : string :=
  "0, Test GPU, 525.60, 45, 10, 5, 8192, 6000, 2192, 50.5, 150.0, 1500, 7000, ".

(** The same line as [stdout.trim()] leaves it at the end of the output. *)
Definition fanlessLastLine : string :=
  "0, Test GPU, 525.60, 45, 10, 5, 8192, 6000, 2192, 50.5, 150.0, 1500, 7000,".

(** A Linux machine with two cards without fan sensor. *)
Definition fanlessHost : Host :=
  hostOf "linux"
    [(probePosix, "/usr/bin/nvidia-smi" ++ LF);
     (command, fanlessLine ++ LF ++ fanlessLine ++ LF)].

(** ** Outcomes of the helpers

    The helpers of the route read as functions of the host: what they
    return and which events they log.  The lemmas of the next part show that
    the route computes exactly these. *)

(** The command [checkNvidiaSmi] runs. *)
Definition probe (isWindows : bool) : string :=
  if isWindows then probeWindows else probePosix.

(** Whether a command resolved. *)
Definition succeeded {A B} (r : A + B) : bool :=
  match r with inr _ => true | inl _ => false end.

(** [totalMemoryGB], from the output of [sysctl -n hw.memsize]. *)
Definition mpsMemoryGB (memInfo : string) : float :=
  Math_round (parseInt (trim memInfo) / (1024 * 1024 * 1024))%float.

(** [usedMemoryMB] and [freeMemoryMB], from the outcome of [vm_stat]. *)
Definition mpsUsage (vm : exn + string) : value * value :=
  match vm with
  | inr vmStat =>
      (VNum (Math_round
               (((pageCount "Pages active:" vmStat
                  + pageCount "Pages wired down:" vmStat
                  + pageCount "Pages inactive:" vmStat) * 4096)
                / (1024 * 1024))%float),
       VNum (Math_round
               ((pageCount "Pages free:" vmStat * 4096) / (1024 * 1024))%float))
  | inl _ => (NA, NA)
  end.

(** The events of the [vm_stat] block. *)
Definition mpsUsageEvents (vm : exn + string) : list event :=
  match vm with
  | inr _ => [Exec vmStatCommand]
  | inl e => [Exec vmStatCommand; ConsoleError "Error getting memory stats:" e]
  end.

(** [cores], from the outcome of the [system_profiler] pipeline: left out
    when the pipeline is rejected or prints no colon. *)
Definition mpsCores (sp : exn + string) : value :=
  match sp with
  | inr gpuCores =>
      match nth_error (split gpuCores ":") 1 with
      | Some part => VNum (parseInt (trim part))
      | None => VUndefined
      end
  | inl _ => VUndefined
  end.

(** What [getMpsInfo] returns and logs, read off the outcomes of its four
    commands. *)
Definition mpsOutcome (h : Host) : option GpuRecord * list event :=
  match exec h brandCommand with
  | inl e => (None, [Exec brandCommand; ConsoleError "Error detecting MPS:" e])
  | inr stdout =>
      if includes stdout "Apple M" then
        match exec h memsizeCommand with
        | inl e =>
            (None, [Exec brandCommand; Exec memsizeCommand;
                    ConsoleError "Error detecting MPS:" e])
        | inr memInfo =>
            (Some (mpsRecord stdout (mpsMemoryGB memInfo)
                     (fst (mpsUsage (exec h vmStatCommand)))
                     (snd (mpsUsage (exec h vmStatCommand)))
                     (mpsCores (exec h coresCommand))),
             [Exec brandCommand; Exec memsizeCommand]
               ++ mpsUsageEvents (exec h vmStatCommand) ++ [Exec coresCommand])%list
        end
      else (None, [Exec brandCommand])
  end.

(** [isWindows] and [isMac] of [GET]. *)
Definition isWindowsOf (h : Host) : bool := String.eqb (os_platform h) "win32".
Definition isMacOf (h : Host) : bool := String.eqb (os_platform h) "darwin".

(** What the NVIDIA branch of [GET] computes: the flag and the records, or
    the exception of the query, and the commands it started. *)
Definition nvidiaOutcome (h : Host) : (exn + bool * list GpuRecord) * list event :=
  if succeeded (exec h (probe (isWindowsOf h))) then
    (match exec h command with
     | inr stdout =>
         inr (true, map (fun gpu => withType gpu "cuda") (parseStats stdout))
     | inl e => inl e
     end, [Exec (probe (isWindowsOf h)); Exec command])
  else (inr (false, []), [Exec (probe (isWindowsOf h))]).

(** The response of the [try] block of [GET]. *)
Definition okResponse (h : Host) (nv mps : bool) (gs : list GpuRecord) : Response :=
  {| status := 200;
     body := {| hasNvidiaSmi := nv; hasMps := mps; platform := os_platform h;
                gpus := gs; error := None |} |}.

(** The response of the [catch] block of [GET]. *)
Definition errorResponse (h : Host) (e : exn) : Response :=
  {| status := 500;
     body := {| hasNvidiaSmi := false; hasMps := false; platform := os_platform h;
                gpus := [];
                error := Some ("Failed to fetch GPU stats: " ++ message e) |} |}.

(** What the [try] block of [GET] returns or throws, and logs. *)
Definition bodyOutcome (h : Host) : (exn + Response) * list event :=
  match nvidiaOutcome h with
  | (inl e, evs) => (inl e, evs)
  | (inr (nv, gs), evs) =>
      if isMacOf h then
        match mpsOutcome h with
        | (Some info, evs') => (inr (okResponse h nv true (gs ++ [info])), evs ++ evs')
        | (None, evs') => (inr (okResponse h nv false gs), evs ++ evs')
        end%list
      else (inr (okResponse h nv false gs), evs)
  end.

(** ** Predicates on records and tokens *)

(** A Number that is integral: a signed zero or the value of an integer. *)
Definition integral (x : float) : Prop := x = neg_zero \/ exists z : Z, x = ofZ z.

(** A field that holds an integral Number or [NaN]. *)
Definition integralOrNaN (v : value) : Prop :=
  exists x, v = VNum x /\ (x = nan \/ integral x).

(** A token looks numeric when, after leading white space and an optional
    sign, it starts with a decimal digit, with a decimal point or with
    [Infinity]. *)
Definition looksNumeric (tok : string) : bool :=
  let s := snd (takeSign (trimStart tok)) in
  String.prefix "Infinity" s ||
  match s with
  | String c _ => isDigit c || Ascii.eqb c "."
  | EmptyString => false
  end.

(** The field of a record that is read from a column of the line; the
    columns 1 and 2 are the name and the driver version. *)
Definition numericColumn (col : nat) (r : GpuRecord) : option value :=
  match col with
  | 0 => Some (index r)
  | 3 => Some (temperature r)
  | 4 => Some (utilization_gpu (utilization r))
  | 5 => Some (utilization_memory (utilization r))
  | 6 => Some (memory_total (memory r))
  | 7 => Some (memory_free (memory r))
  | 8 => Some (memory_used (memory r))
  | 9 => Some (power_draw (power r))
  | 10 => Some (power_limit (power r))
  | 11 => Some (clocks_graphics (clocks r))
  | 12 => Some (clocks_memory (clocks r))
  | 13 => Some (fan_speed (fan r))
  | _ => None
  end%nat.

(** The reading of C2 on the NVIDIA branch: a column without a number
    would give the ["N/A"] marker. *)
Definition unknownIsMarked : Prop :=
  forall (line : string) (col : nat) (v : value),
    numericColumn col (parseLine line) = Some v ->
    looksNumeric (toStr (nth_error (items line) col)) = false ->
    v = NA.

(** A line as [nvidia-smi] prints it for a card without temperature, power
    and fan sensors. *)
Definition unsupportedLine : string :=
  "0, Test GPU, 525.60, [N/A], 10, 5, 8192, 6000, 2192, [N/A], 150.0, 1500, 7000, [N/A]".

(** The number of binary digits of a positive integer. *)
Definition dig (p : positive) : Z := Zpos (digits2_pos p).

(** A string of decimal digits only. *)
Fixpoint allDigits (s : string) : bool :=
  match s with
  | EmptyString => true
  | String c r => isDigit c && allDigits r
  end.

(** Whether a record carries the tag [t]. *)
Definition hasType (t : string) (g : GpuRecord) : bool :=
  match type g with
  | VStr s => String.eqb s t
  | _ => false
  end.

(** The number of records of a list that carry a given tag. *)
Definition countType (t : string) (gs : list GpuRecord) : nat :=
  List.length (filter (hasType t) gs).

(** [out] is the text [s] as a command prints it: alone or followed by a
    line feed. *)
Definition printed (s out : string) : Prop := out = s \/ out = s ++ LF.

Arguments countType : simpl never.

(** ** Events and shapes of the output *)

(** The commands of a log, in the order they were started. *)
Fixpoint commandsOf (t : list event) : list string :=
  match t with
  | [] => []
  | Exec c :: t' => c :: commandsOf t'
  | ConsoleError _ _ :: t' => commandsOf t'
  end.

(** The labels of the [console.error] calls of a log. *)
Fixpoint errorLabels (t : list event) : list string :=
  match t with
  | [] => []
  | Exec _ :: t' => errorLabels t'
  | ConsoleError label _ :: t' => label :: errorLabels t'
  end.

(** Whether [l1] is [l2] with some elements left out. *)
Fixpoint subseq (l1 l2 : list string) {struct l2} : bool :=
  match l1, l2 with
  | [], _ => true
  | _ :: _, [] => false
  | a :: l1', b :: l2' =>
      if String.eqb a b then subseq l1' l2' else subseq l1 l2'
  end.

(** The commands [GET] may start after the probe, in the order of the
    source. *)
Definition laterCommands (isMac : bool) : list string :=
  command ::
  (if isMac then [brandCommand; memsizeCommand; vmStatCommand; coresCommand]
   else []).

(** The number of occurrences of a code unit in a string. *)
Fixpoint countChar (c : ascii) (s : string) : nat :=
  match s with
  | EmptyString => 0
  | String a r => (if Ascii.eqb a c then 1 else 0) + countChar c r
  end.

(** The record [getGpuStats] builds from a line without any item. *)
Definition blankRecord : GpuRecord :=
  {| index := VNum nan;
     name := VUndefined;
     driverVersion := VUndefined;
     temperature := VNum nan;
     utilization := {| utilization_gpu := VNum nan; utilization_memory := VNum nan |};
     memory := {| memory_total := VNum nan; memory_free := VNum nan;
                  memory_used := VNum nan |};
     power := {| power_draw := VNum nan; power_limit := VNum nan |};
     clocks := {| clocks_graphics := VNum nan; clocks_memory := VNum nan |};
     fan := {| fan_speed := VNum 0 |};
     type := VUndefined;
     model := VUndefined;
     cores := VUndefined |}.

(** A Linux machine where the query prints nothing. *)
Definition silentDriverHost : Host :=
  hostOf "linux" [(probePosix, "/usr/bin/nvidia-smi" ++ LF); (command, "")].

(** An Apple Silicon Mac on which [which nvidia-smi] answers and the query
    is rejected. *)
Definition macBrokenDriverHost : Host :=
  hostOf "darwin"
    [(probePosix, "/usr/local/bin/nvidia-smi" ++ LF);
     (brandCommand, "Apple M2 Pro" ++ LF);
     (memsizeCommand, "17179869184" ++ LF)].

(** A Windows machine with one NVIDIA card. *)
Definition windowsHost : Host :=
  hostOf "win32"
    [(probeWindows, "GPU 0: Test GPU (UUID: GPU-0)" ++ LF);
     (command, sampleLine ++ String "013"%char LF)].

(** An Apple Silicon Mac on which [sysctl -n hw.memsize] prints no number. *)
Definition macOddMemsizeHost : Host :=
  hostOf "darwin"
    [(brandCommand, "Apple M2 Pro" ++ LF);
     (memsizeCommand, LF);
     (vmStatCommand, sampleVmStat)].


(** [f] applied to the last element of a list. *)
Fixpoint onLast (f : string -> string) (l : list string) : list string :=
  match l with
  | [] => []
  | [x] => [f x]
  | x :: l' => x :: onLast f l'
  end.

(** The integer columns of a line: all the numeric ones but the two power
    columns. *)
Definition integerColumn (col : nat) : bool :=
  match col with
  | 0 | 3 | 4 | 5 | 6 | 7 | 8 | 11 | 12 | 13 => true
  | _ => false
  end%nat.

(** The text after a decimal numeral does not go on with a digit, nor
    with the [x] of a hexadecimal prefix. *)
Definition stopsNumeral (rest : string) : bool :=
  match rest with
  | EmptyString => true
  | String c _ => negb (isDigit c || Ascii.eqb c "x" || Ascii.eqb c "X")
  end.

(** The Linux machine of [linuxHost] with another path printed by [which]. *)
Definition linuxHostOtherPath : Host :=
  hostOf "linux"
    [(probePosix, "/opt/nvidia/bin/nvidia-smi" ++ LF); (command, sampleLine ++ LF)].

(** * Properties *)

Arguments parseInt : simpl never.
Arguments parseFloat : simpl never.
Arguments Math_round : simpl never.
Arguments trim : simpl never.
Arguments split : simpl never.
Arguments includes : simpl never.
Arguments matchGroup1 : simpl never.
Arguments pageCount : simpl never.
Arguments parseStats : simpl never.
Arguments parseLine : simpl never.
Arguments mpsRecord : simpl never.

(** ** The run-time model on examples *)

Example parseInt_examples :
  parseInt "45" = 45%float /\ parseInt "  -17 " = (-17)%float /\
  parseInt "42px" = 42%float /\ parseInt "45.75" = 45%float /\
  parseInt "0x1F" = 31%float /\ parseInt "-0" = neg_zero /\
  parseInt "" = nan /\ parseInt "[N/A]" = nan /\ parseInt "undefined" = nan /\
  parseInt "9007199254740993" = 9007199254740992%float.
Proof. vm_compute. repeat split; reflexivity. Qed.

Example parseFloat_examples :
  parseFloat "50.5" = 50.5%float /\ parseFloat "150.0" = 150%float /\
  parseFloat ".5" = 0.5%float /\ parseFloat "-1.5e3 W" = (-1500)%float /\
  parseFloat "1e" = 1%float /\ parseFloat "0x10" = 0%float /\
  parseFloat "-Infinity" = neg_infinity /\ parseFloat "1e400" = infinity /\
  parseFloat "." = nan /\ parseFloat "[N/A]" = nan.
Proof. vm_compute. repeat split; reflexivity. Qed.

Example Math_round_examples :
  Math_round 2.5 = 3%float /\ Math_round (-2.5) = (-2)%float /\
  Math_round 0.25 = 0%float /\ Math_round (-0.25) = neg_zero /\
  Math_round 16 = 16%float /\ Math_round nan = nan /\
  Math_round infinity = infinity.
Proof. vm_compute. repeat split; reflexivity. Qed.

Example string_examples :
  split "a, b, , c" ", " = ["a"; "b"; ""; "c"] /\
  split "" LF = [""] /\
  split "Total Number of Cores: 19" ":" = ["Total Number of Cores"; " 19"] /\
  trim ("  Apple M2 Pro" ++ LF) = "Apple M2 Pro" /\
  includes "Apple M2 Pro" "Apple M" = true /\
  includes "Intel Core i9" "Apple M" = false /\
  matchGroup1 "Pages free:" sampleVmStat = Some "12345" /\
  matchGroup1 "Pages wired down:" sampleVmStat = Some "100000" /\
  matchGroup1 "Pages speculative:" sampleVmStat = None.
Proof. vm_compute. repeat split; reflexivity. Qed.

(** The route on the sample Macs: all tools answering, and an Intel
    processor. *)
Example GET_macHost :
  fst (GET macHost []) =
    inr (okResponse macHost false true
           [mpsRecord "Apple M2 Pro" 16 (VNum 1914) (VNum 48) (VNum 19)]).
Proof. vm_compute. reflexivity. Qed.

Example GET_intelMacHost :
  GET intelMacHost [] =
    (inr (okResponse intelMacHost false false []),
     [Exec probePosix; Exec brandCommand]).
Proof. vm_compute. reflexivity. Qed.

(** ** How the helpers run *)

Lemma checkNvidiaSmi_run (h : Host) (isWindows : bool) (t : list event) :
  checkNvidiaSmi h isWindows t =
    (inr (succeeded (exec h (probe isWindows))), (t ++ [Exec (probe isWindows)])%list).
Proof.
  unfold checkNvidiaSmi, tryCatch, bind, execAsync, ret, probe.
  destruct isWindows; simpl.
  - destruct (exec h probeWindows); reflexivity.
  - destruct (exec h probePosix); reflexivity.
Qed.

Lemma getGpuStats_run (h : Host) (isWindows : bool) (t : list event) :
  getGpuStats h isWindows t =
    (match exec h command with
     | inr stdout => inr (parseStats stdout)
     | inl e => inl e
     end, (t ++ [Exec command])%list).
Proof.
  unfold getGpuStats, bind, execAsync, ret.
  destruct (exec h command); reflexivity.
Qed.

Ltac run_monad :=
  unfold tryCatch, bind, execAsync, console_error, ret, throw;
  cbv beta iota zeta.

Lemma getMpsInfo_run (h : Host) (t : list event) :
  getMpsInfo h t = (inr (fst (mpsOutcome h)), (t ++ snd (mpsOutcome h))%list).
Proof.
  unfold getMpsInfo, memoryUsage, mpsOutcome. run_monad.
  destruct (exec h brandCommand) as [e | stdout]; cbv beta iota zeta.
  { unfold fst, snd. now rewrite <- !app_assoc. }
  destruct (includes stdout "Apple M"); unfold negb; cbv beta iota zeta;
    [| reflexivity].
  destruct (exec h memsizeCommand) as [e | memInfo]; cbv beta iota zeta.
  { unfold fst, snd. now rewrite <- !app_assoc. }
  unfold mpsUsage, mpsUsageEvents, mpsCores, mpsMemoryGB.
  destruct (exec h vmStatCommand) as [e | vmStat]; cbv beta iota zeta;
    (destruct (exec h coresCommand) as [e' | gpuCores]; cbv beta iota zeta;
     [| destruct (nth_error (split gpuCores ":") 1); cbv beta iota zeta]);
    unfold fst, snd; rewrite <- !app_assoc; reflexivity.
Qed.

(** [getMpsInfo] catches everything. *)
Lemma getMpsInfo_returns (h : Host) (t : list event) :
  exists info t', getMpsInfo h t = (inr info, t').
Proof. rewrite getMpsInfo_run. eauto. Qed.

(** Every record of the NVIDIA branch is tagged ["cuda"]. *)
Lemma cuda_records_type (l : list GpuRecord) (g : GpuRecord) :
  In g (map (fun gpu => withType gpu "cuda") l) -> type g = VStr "cuda".
Proof.
  rewrite in_map_iff. intros (x & <- & _). reflexivity.
Qed.

(** The record of [getMpsInfo] is tagged ["mps"]. *)
Lemma mpsRecord_type (stdout : string) (gb : float) (u f c : value) :
  type (mpsRecord stdout gb u f c) = VStr "mps".
Proof. reflexivity. Qed.

Lemma mpsOutcome_type (h : Host) (info : GpuRecord) :
  fst (mpsOutcome h) = Some info -> type info = VStr "mps".
Proof.
  unfold mpsOutcome.
  destruct (exec h brandCommand) as [e | stdout]; [discriminate |].
  destruct (includes stdout "Apple M"); [| discriminate].
  destruct (exec h memsizeCommand) as [e | memInfo]; [discriminate |].
  intros [= <-]. reflexivity.
Qed.

Lemma GET_body_run (h : Host) (t : list event) :
  GET_body h t = (fst (bodyOutcome h), (t ++ snd (bodyOutcome h))%list).
Proof.
  unfold GET_body, bodyOutcome, nvidiaOutcome.
  fold (isWindowsOf h). fold (isMacOf h).
  unfold bind at 1. rewrite checkNvidiaSmi_run.
  destruct (succeeded (exec h (probe (isWindowsOf h)))).
  - unfold bind at 1. unfold bind at 1. rewrite getGpuStats_run.
    destruct (exec h command) as [e | stdout]; cbv beta iota zeta.
    { unfold fst, snd. now rewrite <- app_assoc. }
    unfold ret at 1. cbv beta iota zeta. unfold ret at 1.
    destruct (isMacOf h).
    + unfold bind. rewrite getMpsInfo_run.
      destruct (mpsOutcome h) as [[info |] evs']; unfold ret, fst, snd;
        cbv beta iota zeta; unfold okResponse;
        rewrite <- !app_assoc; reflexivity.
    + unfold bind, ret, fst, snd. cbv beta iota zeta. unfold okResponse.
      rewrite <- !app_assoc. reflexivity.
  - unfold bind at 1. unfold ret at 1.
    destruct (isMacOf h).
    + unfold bind. rewrite getMpsInfo_run.
      destruct (mpsOutcome h) as [[info |] evs']; unfold ret, fst, snd;
        cbv beta iota zeta; unfold okResponse;
        rewrite <- ?app_assoc; reflexivity.
    + unfold bind, ret, fst, snd. cbv beta iota zeta. reflexivity.
Qed.

Lemma GET_run (h : Host) (t : list event) :
  GET h t =
    match bodyOutcome h with
    | (inr resp, evs) => (inr resp, t ++ evs)
    | (inl e, evs) =>
        (inr (errorResponse h e),
         t ++ evs ++ [ConsoleError "Error fetching GPU stats:" e])
    end%list.
Proof.
  unfold GET, tryCatch. rewrite GET_body_run.
  destruct (bodyOutcome h) as [[e | resp] evs]; unfold fst, snd.
  - unfold bind, console_error, ret, errorResponse. now rewrite <- app_assoc.
  - reflexivity.
Qed.

(** The Apple branch never starts the NVIDIA query. *)
Lemma mpsOutcome_no_query (h : Host) : ~ In (Exec command) (snd (mpsOutcome h)).
Proof.
  unfold mpsOutcome, mpsUsageEvents.
  destruct (exec h brandCommand) as [e | stdout];
    [| destruct (includes stdout "Apple M");
       [destruct (exec h memsizeCommand) as [e | memInfo];
        [| destruct (exec h vmStatCommand)] |]];
    cbn; intuition discriminate.
Qed.

Lemma probe_not_query (w : bool) : Exec (probe w) <> Exec command.
Proof. destruct w; discriminate. Qed.

(** When the [try] block of [GET] throws: exactly when the probe succeeded
    and the query was rejected. *)
Lemma bodyOutcome_raises (h : Host) (e : exn) :
  fst (bodyOutcome h) = inl e <->
  succeeded (exec h (probe (isWindowsOf h))) = true /\ exec h command = inl e.
Proof.
  unfold bodyOutcome, nvidiaOutcome.
  destruct (succeeded (exec h (probe (isWindowsOf h)))).
  - destruct (exec h command) as [e' | stdout].
    + cbn. split; [intros [= ->]; auto | intros [_ [= ->]]; reflexivity].
    + destruct (isMacOf h); [destruct (mpsOutcome h) as [[info |] evs'] |];
        cbn; split; (discriminate || intros [_ ?]; discriminate).
  - destruct (isMacOf h); [destruct (mpsOutcome h) as [[info |] evs'] |];
      cbn; split; (discriminate || intros [? _]; discriminate).
Qed.

(** A response built by the [try] block is a success without [error]. *)
Lemma bodyOutcome_ok (h : Host) (r : Response) :
  fst (bodyOutcome h) = inr r -> status r = 200%Z /\ error (body r) = None.
Proof.
  unfold bodyOutcome.
  destruct (nvidiaOutcome h) as [[e | [nv gs]] evs]; [discriminate |].
  destruct (isMacOf h); [destruct (mpsOutcome h) as [[info |] evs'] |];
    cbn; intros [= <-]; auto.
Qed.

(** C1: [GET] never raises to its caller.  Whatever the host does and
    whatever was logged before, the handler returns a response.  If its
    [try] block throws, the response has status 500 and carries
    [hasNvidiaSmi = false], [hasMps = false], [gpus = []] and a non-empty
    [error] string; otherwise the response is the one the block built, with
    status 200 and no [error].  The block throws exactly when the NVIDIA
    probe succeeds and the query command is then rejected. *)
Theorem GET_never_raises (h : Host) (t : list event) :
  exists resp t',
    GET h t = (inr resp, t') /\
    (forall e, fst (GET_body h t) = inl e ->
       status resp = 500%Z /\
       hasNvidiaSmi (body resp) = false /\
       hasMps (body resp) = false /\
       gpus (body resp) = [] /\
       exists msg, error (body resp) = Some msg /\ msg <> "") /\
    (forall r, fst (GET_body h t) = inr r ->
       resp = r /\ status resp = 200%Z /\ error (body resp) = None) /\
    (forall e, fst (GET_body h t) = inl e <->
       succeeded (exec h (probe (isWindowsOf h))) = true /\
       exec h command = inl e).
Proof.
  rewrite GET_run, GET_body_run. unfold fst at 1 2 3.
  pose proof (bodyOutcome_raises h) as Hraise.
  pose proof (bodyOutcome_ok h) as Hok.
  destruct (bodyOutcome h) as [[e | resp] evs]; unfold fst in Hraise, Hok.
  - eexists; eexists; split; [reflexivity |].
    split; [| split; [discriminate | exact Hraise]].
    intros e' _. cbn. repeat split; try reflexivity.
    eexists; split; [reflexivity | discriminate].
  - eexists; eexists; split; [reflexivity |].
    split; [discriminate | split; [| exact Hraise]].
    intros r [= <-]. split; [reflexivity | auto].
Qed.

(** The failure path of C1 is taken on a machine where the probe finds
    [nvidia-smi] and the query is rejected. *)
Example GET_brokenDriverHost :
  fst (GET brokenDriverHost []) =
    inr {| status := 500;
           body := {| hasNvidiaSmi := false; hasMps := false; platform := "linux";
                      gpus := [];
                      error := Some ("Failed to fetch GPU stats: Command failed: " ++ command) |} |}.
Proof. vm_compute. reflexivity. Qed.

(** C4: if the NVIDIA capability probe (the one of the platform) fails,
    the response has [hasNvidiaSmi = false], no record of [gpus] is tagged
    ["cuda"], and the query command is never started. *)
Theorem probe_failure_skips_query (h : Host) (e : exn) :
  exec h (probe (isWindowsOf h)) = inl e ->
  exists resp t',
    GET h [] = (inr resp, t') /\
    hasNvidiaSmi (body resp) = false /\
    (forall g, In g (gpus (body resp)) -> type g <> VStr "cuda") /\
    ~ In (Exec command) t'.
Proof.
  intros Hprobe. rewrite GET_run. unfold bodyOutcome, nvidiaOutcome.
  rewrite Hprobe. cbn [succeeded].
  pose proof (mpsOutcome_no_query h) as Hq.
  pose proof (mpsOutcome_type h) as Hty.
  pose proof (probe_not_query (isWindowsOf h)) as Hp.
  destruct (isMacOf h); [destruct (mpsOutcome h) as [[info |] evs'] |];
    cbn in *; eexists; eexists; (split; [reflexivity |]); cbn;
    repeat split; try tauto.
  intros g [<- | []]. rewrite (Hty _ eq_refl). discriminate.
Qed.

Lemma probe_failure_skips_query_witness :
  exists resp t',
    GET plainLinuxHost [] = (inr resp, t') /\
    hasNvidiaSmi (body resp) = false /\
    (forall g, In g (gpus (body resp)) -> type g <> VStr "cuda") /\
    ~ In (Exec command) t'.
Proof.
  apply (probe_failure_skips_query plainLinuxHost
           (Error ("Command failed: " ++ probePosix))).
  reflexivity.
Defined.

Lemma eqb_darwin_false (p : string) : p <> "darwin" -> String.eqb p "darwin" = false.
Proof. intros H. now apply String.eqb_neq. Qed.

(** C5: on every platform other than ["darwin"] the response has
    [hasMps = false] and no record of [gpus] is tagged ["mps"], whatever
    the other tools do. *)
Theorem no_mps_off_mac (h : Host) :
  os_platform h <> "darwin" ->
  exists resp t',
    GET h [] = (inr resp, t') /\
    hasMps (body resp) = false /\
    (forall g, In g (gpus (body resp)) -> type g <> VStr "mps").
Proof.
  intros Hp. rewrite GET_run. unfold bodyOutcome, isMacOf.
  rewrite (eqb_darwin_false _ Hp). unfold nvidiaOutcome.
  destruct (succeeded (exec h (probe (isWindowsOf h))));
    [destruct (exec h command) as [e | stdout] |];
    cbn; eexists; eexists; (split; [reflexivity |]); cbn;
    (split; [reflexivity |]); try tauto.
  intros g Hg. rewrite (cuda_records_type _ _ Hg). discriminate.
Qed.

Lemma no_mps_off_mac_witness :
  exists resp t',
    GET linuxHost [] = (inr resp, t') /\
    hasMps (body resp) = false /\
    (forall g, In g (gpus (body resp)) -> type g <> VStr "mps").
Proof. apply (no_mps_off_mac linuxHost). discriminate. Defined.

(** C10: in every response, and so in every response without [error],
    [hasMps] is [true] if and only if [gpus] holds a record tagged
    ["mps"]. *)
Theorem hasMps_iff_mps_record (h : Host) :
  exists resp t',
    GET h [] = (inr resp, t') /\
    (hasMps (body resp) = true <->
     exists g, In g (gpus (body resp)) /\ type g = VStr "mps").
Proof.
  rewrite GET_run. unfold bodyOutcome.
  assert (Hnv : forall nv gs evs, nvidiaOutcome h = (inr (nv, gs), evs) ->
                forall g, In g gs -> type g = VStr "cuda").
  { unfold nvidiaOutcome. intros nv gs evs.
    destruct (succeeded (exec h (probe (isWindowsOf h))));
      [destruct (exec h command) as [e | stdout] |]; intros [= <- <- _];
      [apply cuda_records_type | intros g []]. }
  pose proof (mpsOutcome_type h) as Hty.
  destruct (nvidiaOutcome h) as [[e | [nv gs]] evs].
  - cbn. eexists; eexists; split; [reflexivity |]. cbn.
    split; [discriminate | intros (g & [] & _)].
  - specialize (Hnv nv gs evs eq_refl).
    destruct (isMacOf h); [destruct (mpsOutcome h) as [[info |] evs'] |];
      cbn in *; eexists; eexists; (split; [reflexivity |]); cbn.
    + split; [intros _ | reflexivity].
      exists info. split; [apply in_or_app; right; now left | now apply Hty].
    + split; [discriminate |].
      intros (g & Hg & Hm). rewrite (Hnv g Hg) in Hm. discriminate.
    + split; [discriminate |].
      intros (g & Hg & Hm). rewrite (Hnv g Hg) in Hm. discriminate.
Qed.

(** ** Parsing a line of the query output *)

Lemma parseInt_integral (s : string) : parseInt s = nan \/ integral (parseInt s).
Proof.
  unfold parseInt.
  destruct (takeSign (trimStart s)) as [neg s1].
  match goal with
  | |- context [let (_, _) := ?p in _] => destruct p as [radix s2]
  end.
  destruct (digitsValue radix None s2) as [n |]; [right | now left].
  destruct (n =? 0)%Z eqn:Hn.
  - destruct neg; [now left | right; exists 0%Z; reflexivity].
  - right. eexists; reflexivity.
Qed.

Lemma VNum_parseInt_integral (s : string) : integralOrNaN (VNum (parseInt s)).
Proof. exists (parseInt s). split; [reflexivity | apply parseInt_integral]. Qed.

Lemma orElse_zero_integral (x : float) :
  x = nan \/ integral x -> integral (orElse x 0).
Proof.
  intros Hx. unfold orElse. destruct (truthy x) eqn:Ht.
  - destruct Hx as [-> | Hx]; [discriminate Ht | exact Hx].
  - right. exists 0%Z. reflexivity.
Qed.

(** C3: the sample line parses to the record with [index = 0],
    [name = "Test GPU"], [driverVersion = "525.60"], [temperature = 45],
    utilization 10 and 5, memory 8192, 6000 and 2192, power 50.5 and 150,
    clocks 1500 and 7000 and [fan.speed = 30]; [GET] returns it tagged
    ["cuda"].  On every line the fields other than the two power fields are
    integral (or [NaN]), being read with [parseInt], which drops a fraction
    that [parseFloat] keeps in [power.draw] and [power.limit]. *)
Theorem parseLine_sampleLine :
  parseLine sampleLine = sampleRecord /\
  fst (GET linuxHost []) =
    inr (okResponse linuxHost true false [withType sampleRecord "cuda"]) /\
  (forall line,
     let r := parseLine line in
     integralOrNaN (index r) /\ integralOrNaN (temperature r) /\
     integralOrNaN (utilization_gpu (utilization r)) /\
     integralOrNaN (utilization_memory (utilization r)) /\
     integralOrNaN (memory_total (memory r)) /\
     integralOrNaN (memory_free (memory r)) /\
     integralOrNaN (memory_used (memory r)) /\
     integralOrNaN (clocks_graphics (clocks r)) /\
     integralOrNaN (clocks_memory (clocks r)) /\
     integralOrNaN (fan_speed (fan r))) /\
  (let r := parseLine fractionLine in
   temperature r = VNum 45 /\ memory_total (memory r) = VNum 8192 /\
   fan_speed (fan r) = VNum 30 /\
   power_draw (power r) = VNum 50.75 /\ power_limit (power r) = VNum 150.75).
Proof.
  split; [vm_compute; reflexivity |].
  split; [vm_compute; reflexivity |].
  split.
  - intros line r. subst r. unfold parseLine. cbn [index temperature utilization
      utilization_gpu utilization_memory memory memory_total memory_free
      memory_used clocks clocks_graphics clocks_memory fan fan_speed].
    repeat split; try apply VNum_parseInt_integral.
    eexists. split; [reflexivity |]. right.
    apply orElse_zero_integral, parseInt_integral.
  - vm_compute. repeat split; reflexivity.
Qed.

(** C7: when the fan-speed field of a line is empty, [fan.speed] of the
    record is the Number [0] and not the ["N/A"] marker.  The field is
    empty when the fourteenth item of the line is the empty string, and
    also when it is missing: on the last line of the output [stdout.trim()]
    takes the space after the last comma away, and [fanSpeed] is
    [undefined].  In both cases the record tagged ["cuda"] that [GET]
    returns for the line has [fan.speed = 0]. *)
Theorem empty_fan_speed_is_zero (line : string) :
  nth_error (items line) 13 = Some "" \/ nth_error (items line) 13 = None ->
  fan_speed (fan (parseLine line)) = VNum 0 /\
  fan_speed (fan (parseLine line)) <> NA /\
  fan_speed (fan (withType (parseLine line) "cuda")) = VNum 0 /\
  (forall (h : Host) (stdout : string),
     succeeded (exec h (probe (isWindowsOf h))) = true ->
     exec h command = inr stdout ->
     In line (split (trim stdout) LF) ->
     exists resp t' g,
       GET h [] = (inr resp, t') /\
       In g (gpus (body resp)) /\
       g = withType (parseLine line) "cuda" /\
       type g = VStr "cuda" /\
       fan_speed (fan g) = VNum 0).
Proof.
  intros H.
  assert (E : fan_speed (fan (parseLine line)) = VNum 0).
  { unfold parseLine. cbn [fan fan_speed].
    destruct H as [-> | ->]; vm_compute; reflexivity. }
  split; [exact E |]. split; [rewrite E; discriminate |]. split; [exact E |].
  intros h stdout Hp Hq Hin. rewrite GET_run. unfold bodyOutcome, nvidiaOutcome.
  rewrite Hp, Hq.
  assert (Hg : In (withType (parseLine line) "cuda")
                 (map (fun gpu => withType gpu "cuda") (parseStats stdout))).
  { apply (in_map (fun gpu => withType gpu "cuda") (parseStats stdout) (parseLine line)).
    unfold parseStats. now apply (in_map parseLine). }
  destruct (isMacOf h); [destruct (mpsOutcome h) as [[info |] evs'] |];
    eexists; eexists; exists (withType (parseLine line) "cuda");
    (split; [reflexivity |]); cbn [okResponse body gpus];
    (split; [try (apply in_or_app; left); exact Hg |]);
    repeat split; exact E.
Qed.

Lemma empty_fan_speed_is_zero_witness :
  (fan_speed (fan (parseLine fanlessLine)) = VNum 0 /\
   fan_speed (fan (parseLine fanlessLine)) <> NA /\
   fan_speed (fan (withType (parseLine fanlessLine) "cuda")) = VNum 0 /\
   (forall (h : Host) (stdout : string),
      succeeded (exec h (probe (isWindowsOf h))) = true ->
      exec h command = inr stdout ->
      In fanlessLine (split (trim stdout) LF) ->
      exists resp t' g,
        GET h [] = (inr resp, t') /\
        In g (gpus (body resp)) /\
        g = withType (parseLine fanlessLine) "cuda" /\
        type g = VStr "cuda" /\
        fan_speed (fan g) = VNum 0)) /\
  (fan_speed (fan (parseLine fanlessLastLine)) = VNum 0 /\
   fan_speed (fan (parseLine fanlessLastLine)) <> NA /\
   fan_speed (fan (withType (parseLine fanlessLastLine) "cuda")) = VNum 0 /\
   (forall (h : Host) (stdout : string),
      succeeded (exec h (probe (isWindowsOf h))) = true ->
      exec h command = inr stdout ->
      In fanlessLastLine (split (trim stdout) LF) ->
      exists resp t' g,
        GET h [] = (inr resp, t') /\
        In g (gpus (body resp)) /\
        g = withType (parseLine fanlessLastLine) "cuda" /\
        type g = VStr "cuda" /\
        fan_speed (fan g) = VNum 0)).
Proof.
  split.
  - apply (empty_fan_speed_is_zero fanlessLine). left. vm_compute. reflexivity.
  - apply (empty_fan_speed_is_zero fanlessLastLine). right. vm_compute. reflexivity.
Defined.

(** The route on a machine whose two cards have no fan sensor: the first
    line keeps its empty fourteenth item, the last line loses it to
    [stdout.trim()]; both records have [fan.speed = 0]. *)
Example GET_fanlessHost :
  split (trim (fanlessLine ++ LF ++ fanlessLine ++ LF)) LF =
    [fanlessLine; fanlessLastLine] /\
  nth_error (items fanlessLine) 13 = Some "" /\
  nth_error (items fanlessLastLine) 13 = None /\
  nth_error (items fanlessLastLine) 12 = Some "7000," /\
  fst (GET fanlessHost []) =
    inr (okResponse fanlessHost true false
           [withType (parseLine fanlessLine) "cuda";
            withType (parseLine fanlessLastLine) "cuda"]) /\
  map (fun g => fan_speed (fan g)) (parseStats (fanlessLine ++ LF ++ fanlessLine ++ LF)) =
    [VNum 0; VNum 0] /\
  clocks_memory (clocks (parseLine fanlessLastLine)) = VNum 7000.
Proof. vm_compute. repeat split; reflexivity. Qed.

(** ** Tokens without a number *)

Lemma parseInt_not_numeric (tok : string) :
  looksNumeric tok = false -> parseInt tok = nan.
Proof.
  unfold looksNumeric, parseInt.
  destruct (takeSign (trimStart tok)) as [neg s]. cbn [snd]. cbv zeta.
  intros H. apply orb_false_elim in H. destruct H as [_ H].
  destruct s as [| c r]; [reflexivity |].
  destruct c as [[] [] [] [] [] [] [] []];
    solve [discriminate H | reflexivity].
Qed.

Lemma parseFloat_not_numeric (tok : string) :
  looksNumeric tok = false -> parseFloat tok = nan.
Proof.
  unfold looksNumeric, parseFloat.
  destruct (takeSign (trimStart tok)) as [neg s]. cbn [snd]. cbv zeta.
  intros H. apply orb_false_elim in H. destruct H as [Hinf H]. rewrite Hinf.
  destruct s as [| c r]; [reflexivity |].
  destruct c as [[] [] [] [] [] [] [] []];
    solve [discriminate H | reflexivity].
Qed.

(** C2 fails on the NVIDIA branch: the fan-speed column ["[N/A]"] becomes
    the Number [0], the temperature and power-draw columns become [NaN];
    none is the ["N/A"] marker. *)
Lemma unsupported_columns_not_marked :
  nth_error (items unsupportedLine) 13 = Some "[N/A]" /\
  fan_speed (fan (parseLine unsupportedLine)) = VNum 0 /\
  nth_error (items unsupportedLine) 3 = Some "[N/A]" /\
  temperature (parseLine unsupportedLine) = VNum nan /\
  power_draw (power (parseLine unsupportedLine)) = VNum nan /\
  ~ unknownIsMarked.
Proof.
  repeat (split; [vm_compute; reflexivity |]).
  intros H. specialize (H unsupportedLine 13%nat (VNum 0)).
  assert (E : VNum 0 = NA) by (apply H; vm_compute; reflexivity).
  discriminate E.
Qed.

(** C2, amended.  On the NVIDIA branch a numeric column whose token is
    missing or does not look numeric is never the ["N/A"] marker: it is the
    Number [NaN], and the Number [0] in the fan-speed column.  The record of
    the Apple branch carries the marker in GPU utilization, temperature,
    power, clocks and fan speed, and also in used and free memory and in
    memory utilization when [vm_stat] fails. *)
Theorem non_numeric_column_is_NaN :
  (forall (line : string) (col : nat) (v : value),
     numericColumn col (parseLine line) = Some v ->
     looksNumeric (toStr (nth_error (items line) col)) = false ->
     v = VNum (if Nat.eqb col 13 then 0 else nan) /\ v <> NA) /\
  (forall (h : Host) (t t' : list event) (info : GpuRecord),
     getMpsInfo h t = (inr (Some info), t') ->
     utilization_gpu (utilization info) = NA /\
     temperature info = NA /\
     power_draw (power info) = NA /\ power_limit (power info) = NA /\
     clocks_graphics (clocks info) = NA /\ clocks_memory (clocks info) = NA /\
     fan_speed (fan info) = NA /\
     (succeeded (exec h vmStatCommand) = false ->
      memory_used (memory info) = NA /\ memory_free (memory info) = NA /\
      utilization_memory (utilization info) = NA)).
Proof.
  split.
  - intros line col v Hcol Htok.
    assert (E : v = VNum (if Nat.eqb col 13 then 0 else nan)).
    { destruct col as [| [| [| [| [| [| [| [| [| [| [| [| [| [| col]]]]]]]]]]]]]];
        cbn [numericColumn] in Hcol; try discriminate Hcol;
        match type of Hcol with
        | Some ?x = Some _ => assert (Hv : v = x) by congruence; rewrite Hv
        end; unfold parseLine;
        cbn [index temperature utilization utilization_gpu utilization_memory
             memory memory_total memory_free memory_used power power_draw
             power_limit clocks clocks_graphics clocks_memory fan fan_speed];
        rewrite ?(parseInt_not_numeric _ Htok), ?(parseFloat_not_numeric _ Htok);
        reflexivity. }
    split; [exact E |]. rewrite E. destruct (Nat.eqb col 13); discriminate.
  - intros h t t' info. rewrite getMpsInfo_run. intros [= Hinfo _].
    revert Hinfo. unfold mpsOutcome.
    destruct (exec h brandCommand) as [e | stdout]; [discriminate |].
    destruct (includes stdout "Apple M"); [| discriminate].
    destruct (exec h memsizeCommand) as [e | memInfo]; [discriminate |].
    cbn [fst]. intros [= <-]. repeat (split; [reflexivity |]).
    destruct (exec h vmStatCommand); [intros _ | discriminate].
    repeat split; reflexivity.
Qed.

Lemma non_numeric_column_is_NaN_witness :
  fan_speed (fan (parseLine unsupportedLine)) = VNum 0 /\
  fan_speed (fan (parseLine unsupportedLine)) <> NA.
Proof.
  apply (proj1 non_numeric_column_is_NaN unsupportedLine 13%nat);
    vm_compute; reflexivity.
Defined.

(** ** Exact arithmetic on the integers below 2^53 *)

Local Open Scope Z_scope.

Lemma digits2_pos_size p : digits2_pos p = Pos.size p.
Proof. induction p; simpl; congruence. Qed.

Lemma dig_bounds p : 2 ^ (dig p - 1) <= Zpos p < 2 ^ dig p.
Proof.
  unfold dig. rewrite digits2_pos_size.
  pose proof (Pos.size_gt p) as Hgt. pose proof (Pos.size_le p) as Hle.
  apply Pos2Z.pos_lt_pos in Hgt. apply Pos2Z.pos_le_pos in Hle.
  rewrite Pos2Z.inj_pow in Hgt, Hle.
  assert (E2 : Z.pos p~0 = 2 * Z.pos p) by reflexivity. rewrite E2 in Hle.
  split; [| exact Hgt].
  assert (E : 2 ^ Z.pos (Pos.size p) = 2 * 2 ^ (Z.pos (Pos.size p) - 1)).
  { rewrite <- Z.pow_succ_r by lia. f_equal. lia. }
  lia.
Qed.

Lemma dig_unique p d : 2 ^ (d - 1) <= Zpos p < 2 ^ d -> dig p = d.
Proof.
  intros [Hlo Hhi]. pose proof (dig_bounds p) as [Hlo' Hhi'].
  assert (Hd : 0 < d).
  { destruct (Z.ltb_spec 0 d); [assumption |].
    rewrite Z.pow_neg_r in Hlo by lia.
    destruct (Z.eq_dec d 0) as [-> | ]; [simpl in Hhi; lia |].
    rewrite Z.pow_neg_r in Hhi by lia. lia. }
  assert (Hp : 0 < dig p) by (unfold dig; lia).
  destruct (Z.lt_trichotomy (dig p) d) as [Hlt | [Heq | Hgt]]; [| assumption |].
  - assert (2 ^ dig p <= 2 ^ (d - 1)) by (apply Z.pow_le_mono_r; lia). lia.
  - assert (2 ^ d <= 2 ^ (dig p - 1)) by (apply Z.pow_le_mono_r; lia). lia.
Qed.

Lemma binary_round_aux_canonical s m e :
  bounded prec emax m e = true ->
  binary_round_aux prec emax s (Zpos m) e loc_Exact = S754_finite s m e.
Proof.
  unfold bounded, canonical_mantissa. intros H.
  apply andb_prop in H. destruct H as [Hc He].
  apply Z.eqb_eq in Hc.
  unfold binary_round_aux, shr_fexp. cbn [Zdigits2 shr_record_of_loc].
  rewrite Hc, Z.sub_diag. cbn [shr shr_m loc_of_shr_record round_nearest_even Zdigits2 shr_record_of_loc].
  rewrite Hc, Z.sub_diag. cbn [shr shr_m]. rewrite He. reflexivity.
Qed.

(** A normal mantissa with an exponent in range is bounded. *)
Lemma bounded_normal m e :
  dig m = 53 -> -1074 <= e <= 971 -> bounded prec emax m e = true.
Proof.
  intros Hd He. unfold bounded, canonical_mantissa, fexp, SpecFloat.emin, prec, emax.
  fold (dig m). rewrite Hd.
  apply andb_true_intro. split; [apply Z.eqb_eq; lia | apply Z.leb_le; lia].
Qed.

Lemma iter_xO_Z p k : Zpos (Pos.iter xO p k) = Zpos p * 2 ^ Zpos k.
Proof.
  induction k as [| k IH] using Pos.peano_ind.
  - simpl. lia.
  - rewrite Pos.iter_succ, Pos2Z.inj_xO, IH, Pos2Z.inj_succ, Z.pow_succ_r by lia. lia.
Qed.

(** The normal form of a positive integer below 2^53. *)
Lemma binary_normalize_pos p :
  Zpos p < 2 ^ 53 ->
  exists m,
    binary_normalize prec emax (Zpos p) 0 false = S754_finite false m (dig p - 53) /\
    dig m = 53 /\ Zpos m = Zpos p * 2 ^ (53 - dig p).
Proof.
  intros Hp. pose proof (dig_bounds p) as [Hlo Hhi].
  assert (Hd : 0 < dig p <= 53).
  { split; [unfold dig; lia |].
    destruct (Z.leb_spec (dig p) 53); [assumption |].
    assert (2 ^ 53 <= 2 ^ (dig p - 1)) by (apply Z.pow_le_mono_r; lia). lia. }
  unfold binary_normalize, binary_round.
  fold (dig p). rewrite Z.add_0_r.
  unfold fexp, SpecFloat.emin, prec, emax.
  replace (Z.max (dig p - 53) (3 - 1024 - 53)) with (dig p - 53) by lia.
  unfold shl_align. rewrite Z.sub_0_r.
  destruct (dig p - 53) as [| k | k] eqn:Hk; [| lia |].
  - exists p. split; [| split; [lia |]].
    + apply binary_round_aux_canonical, bounded_normal; lia.
    + replace (53 - dig p) with 0 by lia. lia.
  - assert (Hm : Zpos (Pos.iter xO p k) = Zpos p * 2 ^ (53 - dig p)).
    { rewrite iter_xO_Z. f_equal. f_equal. lia. }
    assert (Hdm : dig (Pos.iter xO p k) = 53).
    { apply dig_unique. rewrite Hm.
      replace (2 ^ (53 - 1)) with (2 ^ (dig p - 1) * 2 ^ (53 - dig p))
        by (rewrite <- Z.pow_add_r by lia; f_equal; lia).
      replace (2 ^ 53) with (2 ^ dig p * 2 ^ (53 - dig p))
        by (rewrite <- Z.pow_add_r by lia; f_equal; lia).
      assert (0 < 2 ^ (53 - dig p)) by (apply Z.pow_pos_nonneg; lia).
      split; nia. }
    exists (Pos.iter xO p k). split; [| split; assumption].
    apply binary_round_aux_canonical, bounded_normal; lia.
Qed.

Lemma dig_digits m d : dig m = Zpos d -> digits2_pos m = d.
Proof. unfold dig. congruence. Qed.

(** Dividing a normal number by 2^30 lowers its exponent by 30. *)
Lemma SFdiv_pow2_30 m e :
  dig m = 53 -> -52 <= e <= 0 ->
  SFdiv prec emax (S754_finite false m e) (S754_finite false 4503599627370496 (-22))
  = S754_finite false m (e - 30).
Proof.
  intros Hd He. pose proof (dig_digits _ _ Hd) as Hd'.
  unfold SFdiv, SFdiv_core_binary. cbn [Zdigits2 xorb]. rewrite Hd'.
  change (digits2_pos 4503599627370496) with 53%positive.
  unfold fexp, SpecFloat.emin, prec, emax.
  replace (Z.min (Z.max (53 + e - (53 + -22) - 53) (3 - 1024 - 53)) (e - -22))
    with (e - 31) by lia.
  replace (e - -22 - (e - 31)) with 53 by lia.
  assert (Hq : Z.div_eucl (Z.shiftl (Z.pos m) 53) 4503599627370496 = (Zpos (xO m), 0)).
  { rewrite Z.shiftl_mul_pow2 by lia.
    pose proof (Z.div_eucl_eq (Z.pos m * 2 ^ 53) 4503599627370496 ltac:(lia)) as E.
    pose proof (Z.mod_pos_bound (Z.pos m * 2 ^ 53) 4503599627370496 ltac:(lia)) as B.
    unfold Z.modulo in B.
    destruct (Z.div_eucl (Z.pos m * 2 ^ 53) 4503599627370496) as [q r].
    change (Z.pos m~0) with (2 * Z.pos m).
    change (2 ^ 53) with 9007199254740992 in E.
    assert (r = 0) by lia. assert (q = 2 * Z.pos m) by lia. congruence. }
  rewrite Hq. cbn [new_location Z.even new_location_even Z.eqb].
  unfold binary_round_aux, shr_fexp. cbn [Zdigits2 digits2_pos shr_record_of_loc].
  rewrite Hd'. cbn [Pos.succ].
  unfold fexp, SpecFloat.emin, prec, emax.
  replace (Z.max (54 + (e - 31) - 53) (3 - 1024 - 53) - (e - 31)) with 1 by lia.
  cbn [shr iter_pos shr_1 orb shr_m loc_of_shr_record round_nearest_even
       shr_record_of_loc Zdigits2].
  rewrite Hd'.
  replace (Z.max (53 + (e - 31 + 1) - 53) (3 - 1024 - 53) - (e - 31 + 1)) with 0 by lia.
  cbn [shr shr_m].
  replace (e - 31 + 1 <=? 1024 - 53) with true by (symmetry; apply Z.leb_le; lia).
  f_equal. lia.
Qed.

(** Multiplying a normal number by 1024 raises its exponent by 10. *)
Lemma SFmul_1024 m e :
  dig m = 53 -> -52 <= e <= 0 ->
  SFmul prec emax (S754_finite false m e) (S754_finite false 4503599627370496 (-42))
  = S754_finite false m (e + 10).
Proof.
  intros Hd He. pose proof (dig_digits _ _ Hd) as Hd'.
  unfold SFmul. cbn [xorb]. rewrite Pos.mul_comm.
  cbn [Pos.mul].
  unfold binary_round_aux, shr_fexp. cbn [Zdigits2 digits2_pos shr_record_of_loc].
  rewrite Hd'. cbn [Pos.succ].
  unfold fexp, SpecFloat.emin, prec, emax.
  replace (Z.max (105 + (e + -42) - 53) (3 - 1024 - 53) - (e + -42)) with 52 by lia.
  cbn [shr iter_pos shr_1 orb shr_m loc_of_shr_record round_nearest_even
       shr_record_of_loc Zdigits2].
  rewrite Hd'.
  replace (Z.max (53 + (e + -42 + 52) - 53) (3 - 1024 - 53) - (e + -42 + 52)) with 0 by lia.
  cbn [shr shr_m].
  replace (e + -42 + 52 <=? 1024 - 53) with true by (symmetry; apply Z.leb_le; lia).
  f_equal. lia.
Qed.

Lemma Prim2SF_ofZ_pos p :
  Zpos p < 2 ^ 53 ->
  exists m,
    Prim2SF (ofZ (Zpos p)) = S754_finite false m (dig p - 53) /\
    dig m = 53 /\ Zpos m = Zpos p * 2 ^ (53 - dig p) /\ 0 < dig p <= 53.
Proof.
  intros Hp. destruct (binary_normalize_pos p Hp) as (m & Hn & Hd & Hm).
  assert (Hdp : 0 < dig p <= 53).
  { pose proof (dig_bounds p) as [Hlo Hhi]. split; [unfold dig; lia |].
    destruct (Z.leb_spec (dig p) 53); [assumption |].
    assert (2 ^ 53 <= 2 ^ (dig p - 1)) by (apply Z.pow_le_mono_r; lia). lia. }
  exists m. repeat split; try assumption; try lia.
  unfold ofZ. rewrite Hn. apply Prim2SF_SF2Prim.
  apply bounded_normal; [assumption | lia].
Qed.

Lemma Math_round_finite x m e :
  Prim2SF x = S754_finite false m e -> e < 0 ->
  Math_round x =
    let r := (2 * Zpos m + 2 ^ (- e)) / 2 ^ (- e + 1) in
    if r =? 0 then zero else ofZ r.
Proof.
  intros Hx He. unfold Math_round. rewrite Hx.
  replace (0 <=? e) with false by (symmetry; apply Z.leb_gt; lia).
  reflexivity.
Qed.

(** On the byte counts below 2^53 the arithmetic of [getMpsInfo] is exact:
    it rounds the number of GiB half up and multiplies by 1024. *)
Lemma total_memory_exact (n : Z) :
  0 <= n < 2 ^ 53 ->
  (Math_round (ofZ n / (1024 * 1024 * 1024)) * 1024)%float =
  ofZ (1024 * ((n + 2 ^ 29) / 2 ^ 30)).
Proof.
  intros [Hn0 Hn].
  destruct n as [| p | p]; [vm_compute; reflexivity | | lia].
  destruct (Prim2SF_ofZ_pos p Hn) as (m & Hx & Hd & Hm & Hdp).
  assert (Hy : Prim2SF (ofZ (Z.pos p) / (1024 * 1024 * 1024))%float =
               S754_finite false m (dig p - 53 - 30)).
  { rewrite div_spec, Hx.
    change (Prim2SF (1024 * 1024 * 1024)%float)
      with (S754_finite false 4503599627370496 (-22)).
    apply SFdiv_pow2_30; [assumption | lia]. }
  rewrite (Math_round_finite _ _ _ Hy) by lia. cbv zeta.
  assert (Hr : (2 * Z.pos m + 2 ^ (- (dig p - 53 - 30))) / 2 ^ (- (dig p - 53 - 30) + 1)
               = (Z.pos p + 2 ^ 29) / 2 ^ 30).
  { rewrite Hm.
    replace (- (dig p - 53 - 30)) with (29 + (54 - dig p)) by lia.
    replace (29 + (54 - dig p) + 1) with (30 + (54 - dig p)) by lia.
    rewrite !Z.pow_add_r by lia.
    replace (2 * (Z.pos p * 2 ^ (53 - dig p))) with (Z.pos p * 2 ^ (54 - dig p)).
    2:{ replace (54 - dig p) with (Z.succ (53 - dig p)) by lia.
        rewrite Z.pow_succ_r by lia. lia. }
    rewrite <- Z.mul_add_distr_r.
    apply Z.div_mul_cancel_r; [lia |].
    apply Z.pow_nonzero; lia. }
  rewrite Hr.
  assert (Hq : 0 <= (Z.pos p + 2 ^ 29) / 2 ^ 30 < 2 ^ 24).
  { split; [apply Z.div_pos; lia |].
    apply Z.div_lt_upper_bound; [lia |]. change (2 ^ 30 * 2 ^ 24) with (2 ^ 54).
    change (2 ^ 29) with 536870912. change (2 ^ 54) with 18014398509481984.
    change (2 ^ 53) with 9007199254740992 in Hn. lia. }
  destruct ((Z.pos p + 2 ^ 29) / 2 ^ 30) as [| q | q] eqn:Eq; [| | lia].
  - vm_compute. reflexivity.
  - cbn [Z.eqb].
    assert (Hq53 : Z.pos q < 2 ^ 53).
    { change (2 ^ 24) with 16777216 in Hq. change (2 ^ 53) with 9007199254740992. lia. }
    destruct (Prim2SF_ofZ_pos q Hq53) as (mq & Hxq & Hdq & Hmq & Hdq').
    assert (Hdq24 : dig q <= 24).
    { pose proof (dig_bounds q) as [Hlo _].
      destruct (Z.leb_spec (dig q) 24); [assumption |].
      assert (2 ^ 24 <= 2 ^ (dig q - 1)) by (apply Z.pow_le_mono_r; lia). lia. }
    assert (Hq10 : dig (1024 * q)%positive = dig q + 10).
    { apply dig_unique. pose proof (dig_bounds q) as [Hlo Hhi].
      rewrite Pos2Z.inj_mul.
      replace (dig q + 10 - 1) with (10 + (dig q - 1)) by lia.
      replace (dig q + 10) with (10 + dig q) by lia.
      rewrite !Z.pow_add_r by lia. change (2 ^ 10) with 1024.
      change (Z.pos 1024) with 1024. lia. }
    assert (H1024 : Z.pos (1024 * q) < 2 ^ 53).
    { rewrite Pos2Z.inj_mul. change (2 ^ 24) with 16777216 in Hq.
      change (2 ^ 53) with 9007199254740992. lia. }
    destruct (Prim2SF_ofZ_pos (1024 * q)%positive H1024) as (mt & Hxt & Hdt & Hmt & _).
    change (1024 * Z.pos q) with (Z.pos (1024 * q)).
    apply Prim2SF_inj. rewrite mul_spec, Hxq, Hxt.
    change (Prim2SF 1024) with (S754_finite false 4503599627370496 (-42)).
    unfold SF64mul. rewrite SFmul_1024 by (assumption || lia).
    assert (Emt : mt = mq).
    { apply Pos2Z.inj. rewrite Hmt, Hmq, Hq10, Pos2Z.inj_mul.
      change (Z.pos 1024) with (2 ^ 10).
      replace (53 - dig q) with (10 + (53 - (dig q + 10))) by lia.
      rewrite Z.pow_add_r by lia. lia. }
    rewrite Emt, Hq10. f_equal. lia.
Qed.

Lemma digitsValue_acc radix a s : exists n, digitsValue radix (Some a) s = Some n.
Proof.
  revert a. induction s as [| c r IH]; intros a; cbn [digitsValue]; [eauto |].
  destruct (digitValue radix c); [apply IH | eauto].
Qed.

Lemma parseInt_decimal (s : string) :
  s <> EmptyString -> allDigits s = true -> parseInt s = ofZ (decimalValue s).
Proof.
  intros Hne Hall. destruct s as [| c r]; [congruence |]. clear Hne.
  cbn [allDigits] in Hall. apply andb_prop in Hall. destruct Hall as [Hc Hr].
  assert (Hv : exists n, digitsValue 10 None (String c r) = Some n).
  { cbn [digitsValue].
    destruct c as [[] [] [] [] [] [] [] []]; try discriminate Hc;
      apply digitsValue_acc. }
  destruct Hv as (n & Hv).
  assert (Hp : parseInt (String c r) =
               match digitsValue 10 None (String c r) with
               | None => nan
               | Some n => if n =? 0 then zero else ofZ n
               end).
  { unfold parseInt.
    destruct c as [[] [] [] [] [] [] [] []]; try discriminate Hc;
      try reflexivity.
    destruct r as [| c2 r']; [reflexivity |].
    cbn [allDigits] in Hr. apply andb_prop in Hr. destruct Hr as [Hc2 _].
    destruct c2 as [[] [] [] [] [] [] [] []]; try discriminate Hc2; reflexivity. }
  rewrite Hp. unfold decimalValue. rewrite Hv.
  destruct (Z.eqb_spec n 0) as [-> | _]; reflexivity.
Qed.

Lemma digitValue_nonneg (radix : Z) (c : ascii) (d : Z) :
  digitValue radix c = Some d -> 0 <= d.
Proof.
  unfold digitValue. cbv zeta.
  set (n := Z.of_N (N_of_ascii c)).
  destruct ((48 <=? n) && (n <=? 57)) eqn:H1;
    [| destruct ((97 <=? n) && (n <=? 122)) eqn:H2;
       [| destruct ((65 <=? n) && (n <=? 90)) eqn:H3; [| discriminate]]];
    match goal with |- context [if ?b then _ else _] => destruct b end;
    try discriminate; intros [= <-];
    match goal with H : _ && _ = true |- _ => apply andb_prop in H end; lia.
Qed.

Lemma digitsValue_nonneg (s : string) (acc : option Z) (n : Z) :
  (forall a, acc = Some a -> 0 <= a) ->
  digitsValue 10 acc s = Some n -> 0 <= n.
Proof.
  revert acc. induction s as [| c r IH]; intros acc Hacc; cbn [digitsValue].
  - intros ->. now apply Hacc.
  - destruct (digitValue 10 c) as [d |] eqn:Hd; [| intros ->; now apply Hacc].
    apply IH. intros a E.
    assert (Ea : a = 10 * match acc with Some a0 => a0 | None => 0 end + d)
      by congruence.
    pose proof (digitValue_nonneg _ _ _ Hd).
    destruct acc as [a0 |]; [specialize (Hacc a0 eq_refl) |]; lia.
Qed.

Lemma decimalValue_nonneg (s : string) : 0 <= decimalValue s.
Proof.
  unfold decimalValue. destruct (digitsValue 10 None s) as [n |] eqn:H; [| lia].
  apply (digitsValue_nonneg s None n); [discriminate | exact H].
Qed.

Local Close Scope Z_scope.

(** ** The record of the Apple branch *)

(** When [getMpsInfo] returns a record, the brand and the memory size were
    read, and the record is built from them and from the outcomes of
    [vm_stat] and [system_profiler]. *)
Lemma mpsOutcome_Some (h : Host) (info : GpuRecord) :
  fst (mpsOutcome h) = Some info ->
  exists stdout memInfo,
    exec h brandCommand = inr stdout /\
    includes stdout "Apple M" = true /\
    exec h memsizeCommand = inr memInfo /\
    info = mpsRecord stdout (mpsMemoryGB memInfo)
             (fst (mpsUsage (exec h vmStatCommand)))
             (snd (mpsUsage (exec h vmStatCommand)))
             (mpsCores (exec h coresCommand)).
Proof.
  unfold mpsOutcome.
  destruct (exec h brandCommand) as [e | stdout]; [discriminate |].
  destruct (includes stdout "Apple M") eqn:Hb; [| discriminate].
  destruct (exec h memsizeCommand) as [e | memInfo]; [discriminate |].
  cbn [fst]. intros [= <-]. exists stdout, memInfo. auto.
Qed.

(** C8: the [memory.total] of the record of the Apple branch is
    [Math.round(bytes / (1024 * 1024 * 1024)) * 1024], where [bytes] is
    [parseInt] of the trimmed output of [sysctl -n hw.memsize]; so it is
    whether or not [vm_stat] and [system_profiler] answer.  For
    17179869184 bytes it is 16384.  When the output is a decimal numeral
    below 2^53, the binary64 arithmetic is exact: [memory.total] is 1024
    times the number of GiB rounded half up. *)
Theorem mps_memory_total (h : Host) (t t' : list event) (info : GpuRecord) :
  getMpsInfo h t = (inr (Some info), t') ->
  exists memInfo,
    exec h memsizeCommand = inr memInfo /\
    memory_total (memory info) =
      VNum (Math_round (parseInt (trim memInfo) / (1024 * 1024 * 1024)) * 1024)%float /\
    (trim memInfo = "17179869184" -> memory_total (memory info) = VNum 16384) /\
    (trim memInfo <> "" -> allDigits (trim memInfo) = true ->
     (decimalValue (trim memInfo) < 2 ^ 53)%Z ->
     memory_total (memory info) =
       VNum (ofZ (1024 * ((decimalValue (trim memInfo) + 2 ^ 29) / 2 ^ 30)))).
Proof.
  rewrite getMpsInfo_run. intros [= Hinfo _].
  destruct (mpsOutcome_Some h info Hinfo) as (stdout & memInfo & _ & _ & Hm & ->).
  exists memInfo. split; [exact Hm |]. split; [reflexivity |].
  unfold mpsRecord, mpsMemoryGB. cbn [memory memory_total]. split.
  - intros Ht. rewrite Ht. vm_compute. reflexivity.
  - intros Hne Hall Hlt. rewrite (parseInt_decimal _ Hne Hall).
    rewrite total_memory_exact; [reflexivity |].
    split; [apply decimalValue_nonneg | exact Hlt].
Qed.

Lemma mps_memory_total_witness :
  exists info memInfo,
    exec macNoVmStatHost memsizeCommand = inr memInfo /\
    memory_total (memory info) =
      VNum (Math_round (parseInt (trim memInfo) / (1024 * 1024 * 1024)) * 1024)%float /\
    (trim memInfo = "17179869184" -> memory_total (memory info) = VNum 16384) /\
    (trim memInfo <> "" -> allDigits (trim memInfo) = true ->
     (decimalValue (trim memInfo) < 2 ^ 53)%Z ->
     memory_total (memory info) =
       VNum (ofZ (1024 * ((decimalValue (trim memInfo) + 2 ^ 29) / 2 ^ 30)))).
Proof.
  eexists.
  eapply (mps_memory_total macNoVmStatHost []).
  vm_compute. reflexivity.
Defined.

(** An unmatched label counts zero pages. *)
Lemma pageCount_unmatched (label vmStat : string) :
  matchGroup1 label vmStat = None -> pageCount label vmStat = 0%float.
Proof. unfold pageCount. intros ->. vm_compute. reflexivity. Qed.

Lemma probe_not_vmStat (w : bool) : Exec (probe w) <> Exec vmStatCommand.
Proof. destruct w; discriminate. Qed.

(** [vm_stat] is started only after the brand was recognised and the memory
    size was read on a Mac, the NVIDIA branch not having thrown. *)
Lemma vmStat_reached (h : Host) :
  In (Exec vmStatCommand) (snd (bodyOutcome h)) ->
  exists nv gs info,
    fst (nvidiaOutcome h) = inr (nv, gs) /\
    fst (mpsOutcome h) = Some info /\
    fst (bodyOutcome h) = inr (okResponse h nv true (gs ++ [info])).
Proof.
  unfold bodyOutcome.
  assert (Hnv : ~ In (Exec vmStatCommand) (snd (nvidiaOutcome h))).
  { unfold nvidiaOutcome. pose proof (probe_not_vmStat (isWindowsOf h)).
    destruct (succeeded (exec h (probe (isWindowsOf h)))); cbn;
      intuition discriminate. }
  assert (Hmps : fst (mpsOutcome h) = None ->
                 ~ In (Exec vmStatCommand) (snd (mpsOutcome h))).
  { unfold mpsOutcome.
    destruct (exec h brandCommand) as [e | stdout];
      [| destruct (includes stdout "Apple M");
         [destruct (exec h memsizeCommand) as [e | memInfo] |]];
      cbn; intuition discriminate. }
  destruct (nvidiaOutcome h) as [[e | [nv gs]] evs]; cbn [fst snd] in *;
    [tauto |].
  destruct (isMacOf h); [| cbn [snd]; tauto].
  destruct (mpsOutcome h) as [[info |] evs']; cbn [fst snd] in *.
  - intros _. exists nv, gs, info. auto.
  - intros Hin. apply in_app_or in Hin. specialize (Hmps eq_refl). tauto.
Qed.

(** C9: if [vm_stat] was started by [GET] and was rejected, the request
    still succeeds and [gpus] holds the record tagged ["mps"], whose
    [memory.used] and [memory.free] are the ["N/A"] marker.  When [vm_stat]
    answers, a label without match counts zero pages: it contributes
    nothing to [memory.used], and [memory.free] is [0] when the free-pages
    label is the one without match. *)
Theorem vm_stat_failure_keeps_record :
  (forall (h : Host) (e : exn) (resp : Response) (t' : list event),
     GET h [] = (inr resp, t') ->
     In (Exec vmStatCommand) t' ->
     exec h vmStatCommand = inl e ->
     status resp = 200%Z /\ error (body resp) = None /\
     hasMps (body resp) = true /\
     exists info,
       In info (gpus (body resp)) /\ type info = VStr "mps" /\
       memory_used (memory info) = NA /\ memory_free (memory info) = NA) /\
  (forall label vmStat,
     matchGroup1 label vmStat = None -> pageCount label vmStat = 0%float) /\
  (forall (h : Host) (t t' : list event) (info : GpuRecord) (vmStat : string),
     getMpsInfo h t = (inr (Some info), t') ->
     exec h vmStatCommand = inr vmStat ->
     (matchGroup1 "Pages free:" vmStat = None ->
      memory_free (memory info) = VNum 0) /\
     (matchGroup1 "Pages active:" vmStat = None ->
      matchGroup1 "Pages wired down:" vmStat = None ->
      matchGroup1 "Pages inactive:" vmStat = None ->
      memory_used (memory info) = VNum 0)).
Proof.
  split; [| split; [exact pageCount_unmatched |]].
  - intros h e resp t' Hget Hin Hvm. rewrite GET_run in Hget.
    pose proof (vmStat_reached h) as Hreach.
    destruct (bodyOutcome h) as [[e' | r] evs]; cbn [fst snd app] in *.
    + injection Hget as _ <-. apply in_app_or in Hin.
      destruct Hin as [Hin | [Hin | []]]; [| discriminate Hin].
      destruct (Hreach Hin) as (nv & gs & info & _ & _ & Hr). discriminate Hr.
    + injection Hget as <- <-.
      destruct (Hreach Hin) as (nv & gs & info & _ & Hinfo & Hr).
      assert (Er : r = okResponse h nv true (gs ++ [info])) by congruence.
      rewrite Er. clear Hr Er.
      cbn. repeat (split; [reflexivity |]).
      exists info. split; [apply in_or_app; right; now left |].
      split; [now apply (mpsOutcome_type h) |].
      destruct (mpsOutcome_Some h info Hinfo) as (s & m & _ & _ & _ & ->).
      rewrite Hvm. split; reflexivity.
  - intros h t t' info vmStat. rewrite getMpsInfo_run. intros [= Hinfo _] Hvm.
    destruct (mpsOutcome_Some h info Hinfo) as (s & m & _ & _ & _ & ->).
    rewrite Hvm. unfold mpsRecord, mpsUsage. cbn [memory memory_free memory_used fst snd].
    split.
    + intros Hf. rewrite (pageCount_unmatched _ _ Hf). vm_compute. reflexivity.
    + intros Ha Hw Hi.
      rewrite (pageCount_unmatched _ _ Ha), (pageCount_unmatched _ _ Hw),
        (pageCount_unmatched _ _ Hi).
      vm_compute. reflexivity.
Qed.

Lemma vm_stat_failure_keeps_record_witness :
  exists resp t',
    GET macNoVmStatHost [] = (inr resp, t') /\
    status resp = 200%Z /\ error (body resp) = None /\
    hasMps (body resp) = true /\
    exists info,
      In info (gpus (body resp)) /\ type info = VStr "mps" /\
      memory_used (memory info) = NA /\ memory_free (memory info) = NA.
Proof.
  eexists. eexists. split; [vm_compute; reflexivity |].
  eapply (proj1 vm_stat_failure_keeps_record macNoVmStatHost).
  - vm_compute. reflexivity.
  - vm_compute. tauto.
  - vm_compute. reflexivity.
Defined.

(** ** The brand string *)

Lemma countType_cuda (l : list GpuRecord) :
  countType "mps" (map (fun gpu => withType gpu "cuda") l) = 0%nat.
Proof. induction l as [| g l IH]; [reflexivity | exact IH]. Qed.

Lemma countType_app (t : string) (l1 l2 : list GpuRecord) :
  countType t (l1 ++ l2) = (countType t l1 + countType t l2)%nat.
Proof. unfold countType. now rewrite filter_app, length_app. Qed.

Lemma nvidiaOutcome_no_mps (h : Host) (nv : bool) (gs : list GpuRecord) :
  fst (nvidiaOutcome h) = inr (nv, gs) -> countType "mps" gs = 0%nat.
Proof.
  unfold nvidiaOutcome.
  destruct (succeeded (exec h (probe (isWindowsOf h))));
    [destruct (exec h command) as [e | stdout] |]; cbn [fst];
    [discriminate | intros [= _ <-]; apply countType_cuda
     | intros [= _ <-]; reflexivity].
Qed.

(** C6 fails as it is stated.  On a Mac whose brand string is
    "Apple M2 Pro", a rejected [sysctl -n hw.memsize] is caught by
    [getMpsInfo], which returns [null]: [hasMps] is [false] and no record is
    emitted.  On an Intel Mac where the NVIDIA query is rejected the
    snapshot carries an [error]. *)
Lemma apple_brand_without_memsize :
  (os_platform macNoMemsizeHost = "darwin" /\
   exec macNoMemsizeHost brandCommand = inr ("Apple M2 Pro" ++ LF) /\
   fst (GET macNoMemsizeHost []) =
     inr (okResponse macNoMemsizeHost false false [])) /\
  (os_platform intelMacBrokenDriverHost = "darwin" /\
   exec intelMacBrokenDriverHost brandCommand = inr ("Intel Core i9" ++ LF) /\
   fst (GET intelMacBrokenDriverHost []) =
     inr (errorResponse intelMacBrokenDriverHost
            (Error ("Command failed: " ++ command)))).
Proof. vm_compute. repeat split; reflexivity. Qed.

Lemma printed_apple (brand : string) :
  printed "Apple M2 Pro" brand -> includes brand "Apple M" = true.
Proof. intros [-> | ->]; vm_compute; reflexivity. Qed.

Lemma printed_intel (brand : string) :
  printed "Intel Core i9" brand -> includes brand "Apple M" = false.
Proof. intros [-> | ->]; vm_compute; reflexivity. Qed.

(** C6, amended.  On ["darwin"], when the NVIDIA branch does not throw (the
    probe fails or the query answers), the request succeeds without
    [error], and:
    - the brand string "Intel Core i9" gives [hasMps = false] and no record
      tagged ["mps"];
    - the brand string "Apple M2 Pro" gives [hasMps = true] and exactly one
      record tagged ["mps"] when [sysctl -n hw.memsize] answers, and
      [hasMps = false] and no such record when it is rejected. *)
Theorem brand_string_decides_mps (h : Host) (brand : string) :
  os_platform h = "darwin" ->
  exec h brandCommand = inr brand ->
  (succeeded (exec h probePosix) = true -> succeeded (exec h command) = true) ->
  exists resp t',
    GET h [] = (inr resp, t') /\
    status resp = 200%Z /\ error (body resp) = None /\
    (printed "Intel Core i9" brand ->
     hasMps (body resp) = false /\ countType "mps" (gpus (body resp)) = 0%nat) /\
    (printed "Apple M2 Pro" brand ->
     (succeeded (exec h memsizeCommand) = true ->
      hasMps (body resp) = true /\ countType "mps" (gpus (body resp)) = 1%nat) /\
     (succeeded (exec h memsizeCommand) = false ->
      hasMps (body resp) = false /\ countType "mps" (gpus (body resp)) = 0%nat)).
Proof.
  intros Hplat Hbrand Hnv. rewrite GET_run. unfold bodyOutcome.
  pose proof (nvidiaOutcome_no_mps h) as Hcount.
  pose proof (mpsOutcome_type h) as Hty.
  assert (Hok : exists nv gs evs, nvidiaOutcome h = (inr (nv, gs), evs)).
  { unfold nvidiaOutcome, isWindowsOf. rewrite Hplat. cbn [String.eqb Ascii.eqb Bool.eqb probe].
    change (probe false) with probePosix.
    destruct (succeeded (exec h probePosix)); [| eauto].
    specialize (Hnv eq_refl). destruct (exec h command); [discriminate | eauto]. }
  destruct Hok as (nv & gs & evs & Hout). rewrite Hout in *.
  specialize (Hcount nv gs eq_refl).
  unfold isMacOf. rewrite Hplat. rewrite String.eqb_refl.
  assert (Hmps :
    (includes brand "Apple M" = false -> fst (mpsOutcome h) = None) /\
    (includes brand "Apple M" = true ->
     (succeeded (exec h memsizeCommand) = true -> fst (mpsOutcome h) <> None) /\
     (succeeded (exec h memsizeCommand) = false -> fst (mpsOutcome h) = None))).
  { unfold mpsOutcome. rewrite Hbrand. split; intros ->.
    - reflexivity.
    - destruct (exec h memsizeCommand); cbn; split; congruence. }
  destruct Hmps as [Hintel Happle].
  destruct (mpsOutcome h) as [[info |] evs']; cbn [fst] in *;
    eexists; eexists; (split; [reflexivity |]); cbn;
    (split; [reflexivity |]); (split; [reflexivity |]).
  - split.
    + intros Hp. specialize (Hintel (printed_intel _ Hp)). discriminate.
    + intros Hp. destruct (Happle (printed_apple _ Hp)) as [_ Hno].
      split; [| intros Hm; specialize (Hno Hm); discriminate].
      intros _. split; [reflexivity |].
      rewrite countType_app, Hcount. unfold countType, hasType.
      cbn [filter]. rewrite (Hty info eq_refl). reflexivity.
  - split.
    + intros _. auto.
    + intros Hp. destruct (Happle (printed_apple _ Hp)) as [Hyes _].
      split; [intros Hm; now destruct (Hyes Hm) | auto].
Qed.

Lemma brand_string_decides_mps_witness :
  exists resp t',
    GET macHost [] = (inr resp, t') /\
    status resp = 200%Z /\ error (body resp) = None /\
    (printed "Intel Core i9" ("Apple M2 Pro" ++ LF) ->
     hasMps (body resp) = false /\ countType "mps" (gpus (body resp)) = 0%nat) /\
    (printed "Apple M2 Pro" ("Apple M2 Pro" ++ LF) ->
     (succeeded (exec macHost memsizeCommand) = true ->
      hasMps (body resp) = true /\ countType "mps" (gpus (body resp)) = 1%nat) /\
     (succeeded (exec macHost memsizeCommand) = false ->
      hasMps (body resp) = false /\ countType "mps" (gpus (body resp)) = 0%nat)).
Proof.
  apply (brand_string_decides_mps macHost ("Apple M2 Pro" ++ LF)).
  - reflexivity.
  - reflexivity.
  - vm_compute. discriminate.
Defined.

(** * Further properties of the route *)

(** ** The probe *)

(** X1: [checkNvidiaSmi] never throws.  It starts exactly one command,
    [nvidia-smi -L] on Windows and [which nvidia-smi] elsewhere, and returns
    [true] exactly when that command resolves. *)
Theorem checkNvidiaSmi_catches (h : Host) (isWindows : bool) (t : list event) :
  exists b t',
    checkNvidiaSmi h isWindows t = (inr b, t') /\
    (b = true <-> exists stdout, exec h (if isWindows then probeWindows else probePosix) = inr stdout) /\
    t' = (t ++ [Exec (if isWindows then probeWindows else probePosix)])%list.
Proof.
  rewrite checkNvidiaSmi_run. unfold probe.
  eexists; eexists; split; [reflexivity |]. split; [| reflexivity].
  destruct (exec h (if isWindows then probeWindows else probePosix)) as [e | out];
    cbn; split; try discriminate; eauto.
  intros [out [=]].
Qed.

(** ** The lines of the query output *)

Lemma split_from_length_LF (cur s : string) :
  List.length (split_from LF 0 cur s) = S (countChar "010"%char s).
Proof.
  revert cur. induction s as [| a r IH]; intros cur; [reflexivity |].
  cbn [split_from countChar]. unfold LF at 1. cbn [String.prefix].
  destruct (ascii_dec "010" a) as [<- | Hne].
  - replace (String.prefix "" r) with true by (destruct r; reflexivity).
    cbn [String.length Nat.sub List.length Ascii.eqb Bool.eqb]. now rewrite IH.
  - rewrite IH.
    destruct (Ascii.eqb_spec a "010"%char) as [-> | _]; [congruence | reflexivity].
Qed.

Lemma parseStats_length (stdout : string) :
  List.length (parseStats stdout) = S (countChar "010"%char (trim stdout)).
Proof.
  unfold parseStats, split. rewrite length_map. apply split_from_length_LF.
Qed.

(** X2: when the query resolves, [getGpuStats] returns one record per line
    of the trimmed output, a blank line included: the number of records is
    one more than the number of line feeds left after trimming. *)
Theorem getGpuStats_one_record_per_line (h : Host) (isWindows : bool)
    (t : list event) (stdout : string) :
  exec h command = inr stdout ->
  exists gs,
    getGpuStats h isWindows t = (inr gs, (t ++ [Exec command])%list) /\
    gs = map parseLine (split (trim stdout) LF) /\
    List.length gs = S (countChar "010"%char (trim stdout)).
Proof.
  intros Hq. rewrite getGpuStats_run, Hq.
  eexists; split; [reflexivity |]. split; [reflexivity | apply parseStats_length].
Qed.

Lemma getGpuStats_one_record_per_line_witness :
  exists gs,
    getGpuStats linuxHost false [] = (inr gs, ([] ++ [Exec command])%list) /\
    gs = map parseLine (split (trim (sampleLine ++ LF)) LF) /\
    List.length gs = S (countChar "010"%char (trim (sampleLine ++ LF))).
Proof.
  apply (getGpuStats_one_record_per_line linuxHost false [] (sampleLine ++ LF)).
  reflexivity.
Defined.

(** X3: when the probe resolves and the query prints nothing but white
    space, [GET] still answers 200 with [hasNvidiaSmi = true], and [gpus]
    starts with its only record tagged ["cuda"]: the blank one, with [NaN]
    in the numeric fields, no name and [fan.speed = 0]. *)
Theorem blank_output_gives_blank_record (h : Host) (stdout : string) :
  succeeded (exec h (probe (isWindowsOf h))) = true ->
  exec h command = inr stdout ->
  trim stdout = "" ->
  exists resp t',
    GET h [] = (inr resp, t') /\
    status resp = 200%Z /\
    hasNvidiaSmi (body resp) = true /\
    firstn 1 (gpus (body resp)) = [withType blankRecord "cuda"] /\
    countType "cuda" (gpus (body resp)) = 1%nat.
Proof.
  intros Hp Hq Ht. rewrite GET_run. unfold bodyOutcome, nvidiaOutcome.
  rewrite Hp, Hq.
  assert (Hs : parseStats stdout = [blankRecord]).
  { unfold parseStats. rewrite Ht. vm_compute. reflexivity. }
  rewrite Hs. cbn [map].
  pose proof (mpsOutcome_type h) as Hty.
  destruct (isMacOf h); [destruct (mpsOutcome h) as [[info |] evs'] |];
    eexists; eexists; (split; [reflexivity |]); cbn [okResponse status body hasNvidiaSmi gpus app firstn];
    repeat (split; [reflexivity |]); try reflexivity.
  unfold countType, hasType. cbn [filter withType type String.eqb Ascii.eqb Bool.eqb].
  cbn [fst] in Hty. rewrite (Hty info eq_refl). reflexivity.
Qed.

Lemma blank_output_gives_blank_record_witness :
  exists resp t',
    GET silentDriverHost [] = (inr resp, t') /\
    status resp = 200%Z /\
    hasNvidiaSmi (body resp) = true /\
    firstn 1 (gpus (body resp)) = [withType blankRecord "cuda"] /\
    countType "cuda" (gpus (body resp)) = 1%nat.
Proof.
  apply (blank_output_gives_blank_record silentDriverHost "");
    vm_compute; reflexivity.
Defined.

Lemma parseStats_nonempty (stdout : string) : parseStats stdout <> [].
Proof.
  intros H. apply (f_equal (@List.length _)) in H.
  rewrite parseStats_length in H. discriminate H.
Qed.

(** X4: in every response [hasNvidiaSmi] is [true] if and only if [gpus]
    holds a record tagged ["cuda"], and if and only if the probe and the
    query both resolved. *)
Theorem hasNvidiaSmi_iff_cuda_record (h : Host) :
  exists resp t',
    GET h [] = (inr resp, t') /\
    (hasNvidiaSmi (body resp) = true <->
     exists g, In g (gpus (body resp)) /\ type g = VStr "cuda") /\
    (hasNvidiaSmi (body resp) = true <->
     succeeded (exec h (probe (isWindowsOf h))) = true /\
     succeeded (exec h command) = true).
Proof.
  rewrite GET_run. unfold bodyOutcome, nvidiaOutcome.
  pose proof (mpsOutcome_type h) as Hty.
  destruct (succeeded (exec h (probe (isWindowsOf h)))).
  - destruct (exec h command) as [e | stdout].
    + eexists; eexists; split; [reflexivity |]. cbn.
      split; (split; [discriminate |]); [intros (g & [] & _) | intros [_ ?]; discriminate].
    + pose proof (parseStats_nonempty stdout) as Hne.
      destruct (parseStats stdout) as [| g0 gs]; [congruence |].
      destruct (isMacOf h); [destruct (mpsOutcome h) as [[info |] evs'] |];
        eexists; eexists; (split; [reflexivity |]); cbn;
        (split; [| tauto]); (split; [intros _ | reflexivity]);
        exists (withType g0 "cuda"); split; auto.
  - destruct (isMacOf h); [destruct (mpsOutcome h) as [[info |] evs'] |];
      eexists; eexists; (split; [reflexivity |]); cbn;
      (split; [| split; [discriminate | intros [? _]; discriminate]]);
      (split; [discriminate |]).
    + intros (g & [<- | []] & Hg). cbn [fst] in Hty.
      rewrite (Hty _ eq_refl) in Hg. discriminate.
    + intros (g & [] & _).
    + intros (g & [] & _).
Qed.

(** ** The shape of the response *)

Lemma nvidiaOutcome_cuda (h : Host) (nv : bool) (gs : list GpuRecord) :
  fst (nvidiaOutcome h) = inr (nv, gs) -> Forall (fun g => type g = VStr "cuda") gs.
Proof.
  unfold nvidiaOutcome.
  destruct (succeeded (exec h (probe (isWindowsOf h))));
    [destruct (exec h command) as [e | stdout] |]; cbn [fst];
    [discriminate | intros [= _ <-] | intros [= _ <-]; constructor].
  apply Forall_forall. intros g Hg. now apply cuda_records_type in Hg.
Qed.

(** X5: in every response [gpus] is the records tagged ["cuda"], in the
    order of the lines, followed by at most one record tagged ["mps"]. *)
Theorem gpus_cuda_then_mps (h : Host) :
  exists resp t',
    GET h [] = (inr resp, t') /\
    exists cudas mpss,
      gpus (body resp) = (cudas ++ mpss)%list /\
      Forall (fun g => type g = VStr "cuda") cudas /\
      Forall (fun g => type g = VStr "mps") mpss /\
      (List.length mpss <= 1)%nat.
Proof.
  rewrite GET_run. unfold bodyOutcome.
  pose proof (nvidiaOutcome_cuda h) as Hc.
  pose proof (mpsOutcome_type h) as Hty.
  destruct (nvidiaOutcome h) as [[e | [nv gs]] evs]; cbn [fst] in Hc.
  - eexists; eexists; split; [reflexivity |].
    exists [], []. cbn. repeat split; auto.
  - specialize (Hc nv gs eq_refl).
    destruct (isMacOf h); [destruct (mpsOutcome h) as [[info |] evs'] |];
      eexists; eexists; (split; [reflexivity |]); cbn [okResponse body gpus].
    + exists gs, [info]. cbn [fst] in Hty.
      repeat split; auto.
    + exists gs, []. rewrite app_nil_r. repeat split; auto.
    + exists gs, []. rewrite app_nil_r. repeat split; auto.
Qed.

Lemma mpsOutcome_labels (h : Host) :
  ~ In "Error fetching GPU stats:" (errorLabels (snd (mpsOutcome h))).
Proof.
  unfold mpsOutcome, mpsUsageEvents.
  destruct (exec h brandCommand) as [e | stdout];
    [| destruct (includes stdout "Apple M");
       [destruct (exec h memsizeCommand) as [e | memInfo];
        [| destruct (exec h vmStatCommand)] |]];
    cbn; intuition discriminate.
Qed.

Lemma errorLabels_app (t1 t2 : list event) :
  errorLabels (t1 ++ t2) = (errorLabels t1 ++ errorLabels t2)%list.
Proof.
  induction t1 as [| [c | l e] t1 IH]; cbn; [reflexivity | exact IH | now rewrite IH].
Qed.

Lemma commandsOf_app (t1 t2 : list event) :
  commandsOf (t1 ++ t2) = (commandsOf t1 ++ commandsOf t2)%list.
Proof.
  induction t1 as [| [c | l e] t1 IH]; cbn; [reflexivity | now rewrite IH | exact IH].
Qed.

(** X6: every response reports [os.platform()].  Either it is a 200
    without [error], and ["Error fetching GPU stats:"] was not logged; or the
    query was rejected with some [e], the status is 500, [error] is
    ["Failed to fetch GPU stats: "] followed by the message of [e], and the
    last event is the [console.error] of [e]. *)
Theorem response_reports_platform_and_failure (h : Host) :
  exists resp t',
    GET h [] = (inr resp, t') /\
    platform (body resp) = os_platform h /\
    ((status resp = 200%Z /\ error (body resp) = None /\
      ~ In "Error fetching GPU stats:" (errorLabels t')) \/
     (exists e,
        exec h command = inl e /\
        status resp = 500%Z /\
        error (body resp) = Some ("Failed to fetch GPU stats: " ++ message e) /\
        exists t0, t' = (t0 ++ [ConsoleError "Error fetching GPU stats:" e])%list)).
Proof.
  rewrite GET_run. unfold bodyOutcome, nvidiaOutcome.
  pose proof (mpsOutcome_labels h) as Hl.
  destruct (succeeded (exec h (probe (isWindowsOf h))));
    [destruct (exec h command) as [e | stdout] |].
  - eexists; eexists; split; [reflexivity |]. split; [reflexivity |].
    right. exists e. repeat split.
    eexists. cbn [app]. change [?a; ?b; ?c] with ([a; b] ++ [c])%list. reflexivity.
  - destruct (isMacOf h); [destruct (mpsOutcome h) as [[info |] evs'] |];
      eexists; eexists; (split; [reflexivity |]); (split; [reflexivity |]);
      left; (split; [reflexivity |]); (split; [reflexivity |]);
      cbn [app errorLabels snd] in *; tauto.
  - destruct (isMacOf h); [destruct (mpsOutcome h) as [[info |] evs'] |];
      eexists; eexists; (split; [reflexivity |]); (split; [reflexivity |]);
      left; (split; [reflexivity |]); (split; [reflexivity |]);
      cbn [app errorLabels snd] in *; tauto.
Qed.

(** X7: when the probe resolves and the query is rejected, [GET] answers
    500 with [hasMps = false] and [gpus = []] after starting these two
    commands only: the Apple branch is skipped and [sysctl] is never
    started, also on ["darwin"]. *)
Theorem query_failure_skips_mps (h : Host) (e : exn) :
  succeeded (exec h (probe (isWindowsOf h))) = true ->
  exec h command = inl e ->
  exists resp t',
    GET h [] = (inr resp, t') /\
    status resp = 500%Z /\
    hasMps (body resp) = false /\ gpus (body resp) = [] /\
    commandsOf t' = [probe (isWindowsOf h); command] /\
    ~ In (Exec brandCommand) t'.
Proof.
  intros Hp Hq. rewrite GET_run. unfold bodyOutcome, nvidiaOutcome.
  rewrite Hp, Hq. eexists; eexists; split; [reflexivity |].
  repeat (split; [reflexivity |]).
  cbn. destruct (isWindowsOf h); cbn; intuition discriminate.
Qed.

Lemma query_failure_skips_mps_witness :
  exists resp t',
    GET macBrokenDriverHost [] = (inr resp, t') /\
    status resp = 500%Z /\
    hasMps (body resp) = false /\ gpus (body resp) = [] /\
    commandsOf t' = [probe (isWindowsOf macBrokenDriverHost); command] /\
    ~ In (Exec brandCommand) t'.
Proof.
  apply (query_failure_skips_mps macBrokenDriverHost
           (Error ("Command failed: " ++ command)));
    vm_compute; reflexivity.
Defined.

(** ** The commands [GET] starts *)

(** X8: [GET] starts the probe of its platform first, and then some of
    the query, the brand, the memory size, [vm_stat] and [system_profiler],
    in this order and each at most once; off ["darwin"] only the query can
    follow.  The query is started exactly when the probe resolved, and
    [system_profiler] exactly when [hasMps] is [true]. *)
Theorem GET_command_order (h : Host) :
  exists resp t' rest,
    GET h [] = (inr resp, t') /\
    commandsOf t' = probe (isWindowsOf h) :: rest /\
    subseq rest (laterCommands (isMacOf h)) = true /\
    (In command rest <-> succeeded (exec h (probe (isWindowsOf h))) = true) /\
    (In coresCommand rest <-> hasMps (body resp) = true).
Proof.
  rewrite GET_run. unfold bodyOutcome, nvidiaOutcome, mpsOutcome, mpsUsageEvents.
  destruct (succeeded (exec h (probe (isWindowsOf h))));
    [destruct (exec h command) as [e | stdout] |];
    (destruct (isMacOf h);
     [destruct (exec h brandCommand) as [e1 | out];
      [| destruct (includes out "Apple M");
         [destruct (exec h memsizeCommand) as [e2 | memInfo];
          [| destruct (exec h vmStatCommand)] |]] |]);
    eexists; eexists; eexists; (split; [reflexivity |]);
    (split; [cbn; reflexivity |]);
    (split; [vm_compute; reflexivity |]);
    cbn; split; split; intros H; try reflexivity; try discriminate;
    try tauto; intuition discriminate.
Qed.

(** ** When [getMpsInfo] gives a record *)

(** X9: [getMpsInfo] never throws.  It returns a record exactly when the
    brand command resolves with a text that includes ["Apple M"] and the
    memory-size command resolves, whatever [vm_stat] and [system_profiler]
    do; the record has [index = 0], [name = "Apple Silicon GPU"], the
    trimmed brand text as [model] and no [driverVersion]. *)
Theorem getMpsInfo_record_iff (h : Host) (t : list event) :
  exists r t',
    getMpsInfo h t = (inr r, t') /\
    (r <> None <->
     exists stdout memInfo,
       exec h brandCommand = inr stdout /\
       includes stdout "Apple M" = true /\
       exec h memsizeCommand = inr memInfo) /\
    (forall info stdout,
       r = Some info -> exec h brandCommand = inr stdout ->
       index info = VNum 0 /\ name info = VStr "Apple Silicon GPU" /\
       model info = VStr (trim stdout) /\ driverVersion info = VUndefined).
Proof.
  rewrite getMpsInfo_run. eexists; eexists; split; [reflexivity |].
  unfold mpsOutcome.
  destruct (exec h brandCommand) as [e | stdout].
  - cbn [fst]. split; [| discriminate].
    split; [congruence | intros (s & m & [=] & _)].
  - destruct (includes stdout "Apple M") eqn:Hb.
    + destruct (exec h memsizeCommand) as [e | memInfo]; cbn [fst].
      * split; [| discriminate].
        split; [congruence | intros (s & m & _ & _ & [=])].
      * split.
        -- split; [intros _; eauto | discriminate].
        -- intros info s [= <-] [= <-]. repeat split.
    + cbn [fst]. split; [| discriminate].
      split; [congruence |]. intros (s & m & [= <-] & Hs & _). congruence.
Qed.

Lemma split_from_length_char (c : ascii) (cur s : string) :
  List.length (split_from (String c EmptyString) 0 cur s) = S (countChar c s).
Proof.
  revert cur. induction s as [| a r IH]; intros cur; [reflexivity |].
  cbn [split_from countChar String.prefix].
  destruct (ascii_dec c a) as [<- | Hne].
  - replace (String.prefix "" r) with true by (destruct r; reflexivity).
    cbn [String.length Nat.sub List.length]. rewrite IH, Ascii.eqb_refl. reflexivity.
  - rewrite IH.
    destruct (Ascii.eqb_spec a c) as [-> | _]; [congruence | reflexivity].
Qed.

Lemma split_char_second (c : ascii) (s : string) :
  nth_error (split s (String c EmptyString)) 1 = None <-> countChar c s = 0%nat.
Proof.
  rewrite nth_error_None. unfold split. rewrite split_from_length_char. lia.
Qed.

(** X10: whenever [getMpsInfo] returns a record, [system_profiler] was
    started.  [cores] is left out exactly when that pipeline is rejected or
    prints no colon; otherwise it is [parseInt] of the trimmed text between
    the first colon and the next. *)
Theorem mps_cores_field (h : Host) (t t' : list event) (info : GpuRecord) :
  getMpsInfo h t = (inr (Some info), t') ->
  In (Exec coresCommand) t' /\
  (cores info = VUndefined <->
   (exists e, exec h coresCommand = inl e) \/
   (exists gpuCores, exec h coresCommand = inr gpuCores /\
                     countChar ":" gpuCores = 0%nat)) /\
  (forall gpuCores part,
     exec h coresCommand = inr gpuCores ->
     nth_error (split gpuCores ":") 1 = Some part ->
     cores info = VNum (parseInt (trim part))).
Proof.
  rewrite getMpsInfo_run. intros [= Hinfo Ht].
  destruct (mpsOutcome_Some h info Hinfo) as (s & m & Hb & Hi & Hm & ->).
  split.
  - subst t'. apply in_or_app. right.
    unfold mpsOutcome. rewrite Hb, Hi, Hm. cbn [snd].
    apply in_or_app. right. apply in_or_app. right. now left.
  - unfold mpsRecord. cbn [cores]. unfold mpsCores.
    destruct (exec h coresCommand) as [e | gpuCores].
    + split; [| intros g p [=]].
      split; [intros _; left; eauto | reflexivity].
    + pose proof (split_char_second ":" gpuCores) as Hc.
      change (String ":" "") with ":" in Hc.
      destruct (nth_error (split gpuCores ":") 1) as [part |] eqn:E.
      * split.
        -- split; [discriminate |].
           intros [(e & [=]) | (g & [= <-] & Hz)].
           apply Hc in Hz. discriminate.
        -- intros g p [= <-] Hp. congruence.
      * split; [| intros g p [= <-] Hp; congruence].
        split; [intros _; right; exists gpuCores; split; [reflexivity | now apply Hc] | reflexivity].
Qed.

Lemma mps_cores_field_witness :
  exists info t',
    In (Exec coresCommand) t' /\
    (cores info = VUndefined <->
     (exists e, exec macHost coresCommand = inl e) \/
     (exists gpuCores, exec macHost coresCommand = inr gpuCores /\
                       countChar ":" gpuCores = 0%nat)) /\
    (forall gpuCores part,
       exec macHost coresCommand = inr gpuCores ->
       nth_error (split gpuCores ":") 1 = Some part ->
       cores info = VNum (parseInt (trim part))).
Proof.
  eexists. eexists.
  eapply (mps_cores_field macHost []).
  vm_compute. reflexivity.
Defined.

(** ** Numbers that are not there *)

Local Open Scope Z_scope.

Lemma div_nan_r (x : float) : (x / nan)%float = nan.
Proof.
  apply Prim2SF_inj. rewrite div_spec.
  change (Prim2SF nan) with S754_nan.
  unfold SF64div, SFdiv. destruct (Prim2SF x); reflexivity.
Qed.

(** X11: when the memory-size command prints no number, [getMpsInfo]
    still returns the record: [memory.total] is [NaN], and memory
    utilization is [NaN] when [vm_stat] resolves and ["N/A"] when it is
    rejected. *)
Theorem non_numeric_memsize_gives_NaN (h : Host) (t : list event)
    (stdout memInfo : string) :
  exec h brandCommand = inr stdout ->
  includes stdout "Apple M" = true ->
  exec h memsizeCommand = inr memInfo ->
  looksNumeric (trim memInfo) = false ->
  exists info t',
    getMpsInfo h t = (inr (Some info), t') /\
    memory_total (memory info) = VNum nan /\
    (succeeded (exec h vmStatCommand) = true ->
     utilization_memory (utilization info) = VNum nan) /\
    (succeeded (exec h vmStatCommand) = false ->
     utilization_memory (utilization info) = NA).
Proof.
  intros Hb Hi Hm Hn. rewrite getMpsInfo_run. unfold mpsOutcome.
  rewrite Hb, Hi, Hm. eexists; eexists; split; [reflexivity |].
  unfold mpsRecord, mpsMemoryGB. cbn [memory memory_total utilization utilization_memory].
  rewrite (parseInt_not_numeric _ Hn).
  assert (E : (Math_round (nan / (1024 * 1024 * 1024)) * 1024)%float = nan)
    by (vm_compute; reflexivity).
  split; [now rewrite E |].
  destruct (exec h vmStatCommand) as [e | vmStat]; cbn [succeeded mpsUsage fst];
    (split; [| intros ?; try discriminate; reflexivity]).
  - discriminate.
  - intros _. rewrite E, div_nan_r. vm_compute. reflexivity.
Qed.

Lemma non_numeric_memsize_gives_NaN_witness :
  exists info t',
    getMpsInfo macOddMemsizeHost [] = (inr (Some info), t') /\
    memory_total (memory info) = VNum nan /\
    (succeeded (exec macOddMemsizeHost vmStatCommand) = true ->
     utilization_memory (utilization info) = VNum nan) /\
    (succeeded (exec macOddMemsizeHost vmStatCommand) = false ->
     utilization_memory (utilization info) = NA).
Proof.
  apply (non_numeric_memsize_gives_NaN macOddMemsizeHost []
           ("Apple M2 Pro" ++ LF) LF);
    vm_compute; reflexivity.
Defined.

(** ** Page counts *)






(** ** Exact arithmetic on page counts *)












Local Close Scope Z_scope.

(** ** Line endings and trailing text *)

Lemma trimEnd_app_ws (c : ascii) (y : string) :
  isWhiteSpace c = true -> trimEnd (y ++ String c "") = trimEnd y.
Proof.
  intros Hc. induction y as [| a r IH]; cbn [append trimEnd].
  - now rewrite Hc.
  - now rewrite IH.
Qed.

Lemma trim_app_ws (c : ascii) (x : string) :
  isWhiteSpace c = true -> trim (x ++ String c "") = trim x.
Proof.
  intros Hc. unfold trim. induction x as [| a r IH]; cbn [append trimStart].
  - now rewrite Hc.
  - destruct (isWhiteSpace a); [exact IH |].
    change (String a (r ++ String c "")) with (String a r ++ String c "").
    now apply trimEnd_app_ws.
Qed.

Lemma split_from_nonempty (sep : string) (skip : nat) (cur s : string) :
  split_from sep skip cur s <> [].
Proof.
  revert skip cur. induction s as [| a r IH]; intros skip cur; cbn [split_from].
  - discriminate.
  - destruct skip; [destruct (String.prefix sep (String a r)) |];
      try apply IH; discriminate.
Qed.

Lemma onLast_cons (f : string -> string) (x : string) (l : list string) :
  l <> [] -> onLast f (x :: l) = x :: onLast f l.
Proof. destruct l; [congruence | reflexivity]. Qed.

Lemma prefix_comma_space (a : ascii) (r : string) :
  String.prefix ", " (String a r) = true ->
  a = ","%char /\ exists r', r = String " " r'.
Proof.
  cbn [String.prefix]. destruct (ascii_dec "," a) as [<- |]; [| discriminate].
  destruct r as [| b r']; cbn [String.prefix]; [discriminate |].
  destruct (ascii_dec " " b) as [<- |]; [| discriminate]. eauto.
Qed.

Lemma prefix_comma_space_app (c a : ascii) (r : string) :
  c <> " "%char ->
  String.prefix ", " (String a (r ++ String c "")) = String.prefix ", " (String a r).
Proof.
  intros Hc. cbn [String.prefix]. destruct (ascii_dec "," a); [| reflexivity].
  destruct r as [| b r']; cbn [append].
  - cbn [String.prefix]. destruct (ascii_dec " " c); [congruence | reflexivity].
  - cbn [String.prefix]. destruct (ascii_dec " " b); [| reflexivity].
    destruct (r' ++ String c ""); destruct r'; reflexivity.
Qed.

Lemma split_from_app_char (c : ascii) (s : string) (skip : nat) (cur : string) :
  c <> ","%char -> c <> " "%char -> (skip <= String.length s)%nat ->
  split_from ", " skip cur (s ++ String c "") =
  onLast (fun x => x ++ String c "") (split_from ", " skip cur s).
Proof.
  intros Hc1 Hc2. revert skip cur.
  induction s as [| a r IH]; intros skip cur Hs.
  - assert (skip = 0)%nat by (cbn in Hs; lia). subst skip.
    cbn [append split_from String.prefix].
    destruct (ascii_dec "," c); [congruence | reflexivity].
  - cbn [append]. destruct skip as [| k].
    + cbn [split_from]. rewrite (prefix_comma_space_app c a r Hc2).
      destruct (String.prefix ", " (String a r)) eqn:Hp.
      * destruct (prefix_comma_space _ _ Hp) as (-> & r' & ->).
        cbn [String.length Nat.sub].
        rewrite IH by (cbn; lia).
        symmetry. apply onLast_cons, split_from_nonempty.
      * apply IH. lia.
    + cbn [split_from]. apply IH. cbn in Hs. lia.
Qed.

Lemma map_trim_onLast (c : ascii) (l : list string) :
  isWhiteSpace c = true ->
  map trim (onLast (fun x => x ++ String c "") l) = map trim l.
Proof.
  intros Hc. induction l as [| x [| y l'] IH]; [reflexivity | |].
  - cbn [onLast map]. now rewrite trim_app_ws.
  - change (onLast ?f (x :: y :: l')) with (x :: onLast f (y :: l')).
    cbn [map] in *. now rewrite IH.
Qed.

Lemma items_app_ws (c : ascii) (line : string) :
  isWhiteSpace c = true -> c <> " "%char ->
  items (line ++ String c "") = items line.
Proof.
  intros Hc Hs. unfold items, split.
  rewrite split_from_app_char; [now apply map_trim_onLast | | assumption | lia].
  intros ->. discriminate Hc.
Qed.

(** X13: a white-space code unit other than a space at the end of a line,
    such as the carriage return of a Windows line ending, does not change
    the record of the line. *)
Theorem parseLine_ignores_line_ending (c : ascii) (line : string) :
  isWhiteSpace c = true -> c <> " "%char ->
  parseLine (line ++ String c "") = parseLine line.
Proof.
  intros Hc Hs. unfold parseLine. now rewrite (items_app_ws c line Hc Hs).
Qed.

(** The route on a Windows machine, whose query output ends its lines with
    a carriage return and a line feed. *)
Example GET_windowsHost :
  GET windowsHost [] =
    (inr (okResponse windowsHost true false [withType sampleRecord "cuda"]),
     [Exec probeWindows; Exec command]).
Proof. vm_compute. reflexivity. Qed.

Lemma parseLine_ignores_line_ending_witness :
  parseLine (sampleLine ++ String "013" "") = parseLine sampleLine.
Proof.
  apply (parseLine_ignores_line_ending "013" sampleLine);
    [reflexivity | discriminate].
Defined.

Local Open Scope Z_scope.

Lemma digitValue_not_digit (c : ascii) :
  isDigit c = false -> digitValue 10 c = None.
Proof.
  destruct c as [[] [] [] [] [] [] [] []]; intros H;
    solve [discriminate H | reflexivity].
Qed.

Lemma digitsValue_app_stop (ds rest : string) (acc : option Z) :
  allDigits ds = true -> stopsNumeral rest = true ->
  digitsValue 10 acc (ds ++ rest) = digitsValue 10 acc ds.
Proof.
  intros Hall Hstop. revert acc.
  induction ds as [| c r IH]; intros acc; cbn [append digitsValue].
  - destruct rest as [| c r]; [reflexivity |].
    cbn [stopsNumeral] in Hstop. cbn [digitsValue].
    rewrite digitValue_not_digit; [reflexivity |].
    destruct (isDigit c); [discriminate Hstop | reflexivity].
  - cbn [allDigits] in Hall. apply andb_prop in Hall. destruct Hall as [_ Hr].
    destruct (digitValue 10 c); [now apply IH | reflexivity].
Qed.

(** [parseInt] reads a leading decimal numeral and ignores what follows. *)
Lemma parseInt_numeral_prefix (ds rest : string) :
  ds <> EmptyString -> allDigits ds = true -> stopsNumeral rest = true ->
  parseInt (ds ++ rest) = ofZ (decimalValue ds).
Proof.
  intros Hne Hall Hstop.
  rewrite <- (parseInt_decimal ds Hne Hall).
  destruct ds as [| c r]; [congruence |]. clear Hne.
  pose proof Hall as Hall'.
  cbn [allDigits] in Hall. apply andb_prop in Hall. destruct Hall as [Hc Hr].
  assert (Hp : forall s, (exists c2 r2, s = String c2 r2 /\ isDigit c2 = true) \/
                         (s = EmptyString) \/
                         (exists c2 r2, s = String c2 r2 /\ c2 <> "x"%char /\ c2 <> "X"%char) ->
               parseInt (String c s) =
               match digitsValue 10 None (String c s) with
               | None => nan
               | Some n => if n =? 0 then zero else ofZ n
               end).
  { intros s Hs. unfold parseInt.
    destruct c as [[] [] [] [] [] [] [] []]; try discriminate Hc;
      try reflexivity.
    destruct Hs as [(c2 & r2 & -> & Hc2) | [-> | (c2 & r2 & -> & Hx & HX)]].
    - destruct c2 as [[] [] [] [] [] [] [] []]; try discriminate Hc2; reflexivity.
    - reflexivity.
    - destruct c2 as [[] [] [] [] [] [] [] []]; try congruence; reflexivity. }
  change (String c r ++ rest) with (String c (r ++ rest)).
  rewrite !Hp.
  - change (String c (r ++ rest)) with (String c r ++ rest).
    now rewrite digitsValue_app_stop.
  - destruct r as [| c2 r2]; [now right; left |].
    left. exists c2, r2. split; [reflexivity |].
    cbn [allDigits] in Hr. apply andb_prop in Hr. tauto.
  - destruct r as [| c2 r2]; cbn [append].
    + destruct rest as [| c2 r2]; [now right; left |].
      right; right. exists c2, r2. split; [reflexivity |].
      cbn [stopsNumeral] in Hstop.
      destruct (Ascii.eqb_spec c2 "x"); [subst; cbn in Hstop; discriminate |].
      destruct (Ascii.eqb_spec c2 "X"); [subst; cbn in Hstop; discriminate |].
      tauto.
    + left. exists c2, (r2 ++ rest). split; [reflexivity |].
      cbn [allDigits] in Hr. apply andb_prop in Hr. tauto.
Qed.

Lemma ofZ_truthy (n : Z) : 0 < n < 2 ^ 53 -> truthy (ofZ n) = true.
Proof.
  intros [H0 Hn]. destruct n as [| p | p]; try lia.
  destruct (Prim2SF_ofZ_pos p Hn) as (m & Hx & _).
  unfold truthy, is_nan, is_zero. rewrite !eqb_spec, Hx.
  change (Prim2SF zero) with (S754_zero false).
  unfold SFeqb, SFcompare. rewrite Z.compare_refl, Pos.compare_cont_refl.
  reflexivity.
Qed.

Lemma orElse_ofZ (n : Z) : 0 <= n < 2 ^ 53 -> orElse (ofZ n) 0 = ofZ n.
Proof.
  intros [H0 Hn]. destruct (Z.eq_dec n 0) as [-> | Hne]; [reflexivity |].
  unfold orElse. now rewrite ofZ_truthy by lia.
Qed.

(** X14: an integer column whose token starts with a decimal numeral
    below 2^53, followed by nothing, or by text that starts with neither a
    digit nor an [x], reads as that numeral: a fraction or a unit after it
    is dropped. *)
Theorem integer_column_reads_numeral (line : string) (col : nat)
    (ds rest : string) (v : value) :
  integerColumn col = true ->
  numericColumn col (parseLine line) = Some v ->
  nth_error (items line) col = Some (ds ++ rest) ->
  ds <> EmptyString -> allDigits ds = true -> stopsNumeral rest = true ->
  decimalValue ds < 2 ^ 53 ->
  v = VNum (ofZ (decimalValue ds)).
Proof.
  intros Hcol Hv Htok Hne Hall Hstop Hlt.
  pose proof (parseInt_numeral_prefix ds rest Hne Hall Hstop) as Hp.
  pose proof (decimalValue_nonneg ds) as H0.
  destruct col as [| [| [| [| [| [| [| [| [| [| [| [| [| [| col]]]]]]]]]]]]]];
    try discriminate Hcol;
    cbn [numericColumn] in Hv;
    match type of Hv with
    | Some ?x = Some _ => assert (Ev : v = x) by congruence; rewrite Ev
    end; unfold parseLine;
    cbn [index temperature utilization utilization_gpu utilization_memory
         memory memory_total memory_free memory_used clocks clocks_graphics
         clocks_memory fan fan_speed];
    rewrite Htok; cbn [toStr]; rewrite Hp; try reflexivity.
  now rewrite orElse_ofZ by lia.
Qed.

Lemma integer_column_reads_numeral_witness :
  temperature (parseLine fractionLine) = VNum (ofZ (decimalValue "45")).
Proof.
  apply (integer_column_reads_numeral fractionLine 3 "45" ".75");
    try (vm_compute; reflexivity); discriminate.
Defined.

Local Close Scope Z_scope.

(** ** What the route does not read *)

(** X15: [GET] does not read what the probe prints.  Two hosts with the
    same platform, the same outcome of the other commands and probes that
    both resolve or are both rejected get the same response and the same
    log. *)
Theorem probe_output_is_ignored (h1 h2 : Host) :
  os_platform h1 = os_platform h2 ->
  succeeded (exec h1 (probe (isWindowsOf h1))) =
    succeeded (exec h2 (probe (isWindowsOf h1))) ->
  (forall c, In c (laterCommands (isMacOf h1)) -> exec h1 c = exec h2 c) ->
  GET h1 [] = GET h2 [].
Proof.
  intros Hp Hs Hc. rewrite !GET_run.
  assert (Hw : isWindowsOf h2 = isWindowsOf h1) by (unfold isWindowsOf; now rewrite Hp).
  assert (Hm : isMacOf h2 = isMacOf h1) by (unfold isMacOf; now rewrite Hp).
  assert (Hq : exec h1 command = exec h2 command) by (apply Hc; now left).
  assert (Hnv : nvidiaOutcome h2 = nvidiaOutcome h1).
  { unfold nvidiaOutcome. now rewrite Hw, <- Hs, <- Hq. }
  assert (He : forall e, errorResponse h2 e = errorResponse h1 e).
  { intros e. unfold errorResponse. now rewrite Hp. }
  assert (Hk : forall nv mps gs, okResponse h2 nv mps gs = okResponse h1 nv mps gs).
  { intros nv mps gs. unfold okResponse. now rewrite Hp. }
  unfold bodyOutcome. rewrite Hnv, Hm.
  destruct (nvidiaOutcome h1) as [[e | [nv gs]] evs]; [now rewrite He |].
  destruct (isMacOf h1) eqn:Emac; [| now rewrite Hk].
  assert (Hmps : mpsOutcome h2 = mpsOutcome h1).
  { unfold mpsOutcome.
    rewrite <- (Hc brandCommand), <- (Hc memsizeCommand),
      <- (Hc vmStatCommand), <- (Hc coresCommand);
      [reflexivity | | | |]; cbn; tauto. }
  rewrite Hmps. destruct (mpsOutcome h1) as [[info |] evs']; now rewrite Hk.
Qed.

Lemma probe_output_is_ignored_witness :
  GET linuxHost [] = GET linuxHostOtherPath [].
Proof.
  apply (probe_output_is_ignored linuxHost linuxHostOtherPath).
  - reflexivity.
  - reflexivity.
  - intros c [<- | []]. reflexivity.
Defined.

(** X16: white space around the output of the query, such as its final
    line feed, does not add a record: [getGpuStats] parses the same
    records. *)
Theorem parseStats_ignores_surrounding_space (c : ascii) (stdout : string) :
  isWhiteSpace c = true ->
  parseStats (stdout ++ String c "") = parseStats stdout /\
  parseStats (String c stdout) = parseStats stdout.
Proof.
  intros Hc. unfold parseStats. split.
  - now rewrite trim_app_ws.
  - unfold trim. cbn [trimStart]. now rewrite Hc.
Qed.

Lemma parseStats_ignores_surrounding_space_witness :
  parseStats (sampleLine ++ String "010" "") = parseStats sampleLine /\
  parseStats (String "010" sampleLine) = parseStats sampleLine.
Proof.
  apply (parseStats_ignores_surrounding_space "010" sampleLine). reflexivity.
Defined.
